(** * Product-search middleware: fusion, RRF and the part-number classifier

    A shallow embedding of the algorithmic core of the repository:

    - [scripts/partno_classifier.py]: module [PartNumberClassifier], on top
      of the string primitives of [PyStr] and the regular expressions of
      [Re], and module [ClassifierMain] for the command line;
    - [scripts/parallel_search_fusion.py]: module [Fusion] for
      [simple_fusion], module [Search] for the embedding cache, the two
      searchers and [parallel_search], and [clear_cache];
    - [scripts/indexing.py]: module [RRF] for [reciprocal_rank_fusion],
      module [Linear] for [_linear_fusion], and [normalize_scores].

    Conventions.

    - A Python [str] is a [string] of ASCII characters (characters above
      127 are kept, but count as neither letters, digits nor white space).
      A Python [int] is a [Z].
    - A finite Python [float] is the rational number it denotes, so the
      comparisons the code makes on scores are exact; float arithmetic (only
      [reciprocal_rank_fusion] computes with floats) is read as exact
      arithmetic.
    - [SearchResult] objects are mutable and shared: lists hold references
      into an object store, and an assignment to an attribute updates the
      store.
    - A call that can raise returns an [outcome]; the vector store and the
      embedding model are parameters that answer each request with an
      outcome and a new state of the outside world.
    - Output on the console and the timing statistics ([search_stats]) are
      left out: no result depends on them. *)

From Stdlib Require Import ZArith QArith Ascii String List Bool Lia Permutation Sorted.
From stdpp Require Import base decidable option list strings pretty gmap.

Local Open Scope string_scope.
Local Open Scope list_scope.

(** ** Python string primitives *)

Module PyStr.

Definition chars (s : string) : list ascii := list_ascii_of_string s.
Definition of_chars (l : list ascii) : string := string_of_list_ascii l.

Definition code (c : ascii) : N := N_of_ascii c.

Definition in_range (lo hi : N) (c : ascii) : bool :=
  (lo <=? code c)%N && (code c <=? hi)%N.

Definition is_digit (c : ascii) : bool := in_range 48 57 c.
Definition is_upper (c : ascii) : bool := in_range 65 90 c.
Definition is_lower (c : ascii) : bool := in_range 97 122 c.
Definition is_alpha (c : ascii) : bool := is_upper c || is_lower c.

(** [\w] on ASCII text: letters, digits and the underscore. *)
Definition is_word (c : ascii) : bool :=
  is_alpha c || is_digit c || (code c =? 95)%N.

(** [str.isspace] on ASCII text: TAB, LF, VT, FF, CR, the four separators
    FS, GS, RS, US and the blank. *)
Definition is_space (c : ascii) : bool :=
  in_range 9 13 c || in_range 28 31 c || (code c =? 32)%N.

Definition lower_char (c : ascii) : ascii :=
  if is_upper c then ascii_of_N (code c + 32) else c.
Definition upper_char (c : ascii) : ascii :=
  if is_lower c then ascii_of_N (code c - 32) else c.

(** [s.lower()] and [s.upper()]. *)
Definition lower (s : string) : string := of_chars (map lower_char (chars s)).
Definition upper (s : string) : string := of_chars (map upper_char (chars s)).

Fixpoint lstrip_chars (l : list ascii) : list ascii :=
  match l with
  | c :: l' => if is_space c then lstrip_chars l' else l
  | [] => []
  end.

(** [s.strip()]: white space removed at both ends. *)
Definition strip (s : string) : string :=
  of_chars (rev (lstrip_chars (rev (lstrip_chars (chars s))))).

(** [s.split()]: the maximal runs of non-blank characters, in order.
    [cur] is the run being read, reversed. *)
Fixpoint split_chars (cur : list ascii) (l : list ascii) : list (list ascii) :=
  match l with
  | [] => match cur with [] => [] | _ => [rev cur] end
  | c :: l' =>
      if is_space c
      then match cur with
           | [] => split_chars [] l'
           | _ => rev cur :: split_chars [] l'
           end
      else split_chars (c :: cur) l'
  end.

Definition split (s : string) : list string :=
  map of_chars (split_chars [] (chars s)).

(** [len(s)]. *)
Definition len (s : string) : Z := Z.of_nat (String.length s).

(** [s.startswith(p)]. *)
Definition startswith (s p : string) : bool := String.prefix p s.

Fixpoint contains_chars (fuel : nat) (p s : string) : bool :=
  String.prefix p s ||
  match fuel, s with
  | S n, String _ s' => contains_chars n p s'
  | _, _ => false
  end.

(** [p in s]: [p] occurs in [s] as a contiguous substring. *)
Definition contains (p s : string) : bool :=
  contains_chars (String.length s) p s.

(** [any(f(x) for x in xs)]. *)
Definition any {A} (f : A -> bool) (xs : list A) : bool := existsb f xs.

End PyStr.

(** ** The fragment of [re] the classifier uses

    Only the existence of a match is ever observed ([re.search] and
    [re.match] used as conditions), so a pattern is given its set of match
    end positions; greedy versus lazy choice plays no role. *)

Module Re.
Import PyStr.

(** Members of a bracket expression. *)
Inductive cset : Type :=
| CChar (c : ascii)
| CRange (lo hi : ascii)
| CSpace.                       (* \s *)

Inductive regex : Type :=
| Eps
| Cls (items : list cset)
| Seq (r1 r2 : regex)
| Or (r1 r2 : regex)
| Star (r : regex)
| Bol                           (* ^  *)
| Eol                           (* $  *)
| WordB.                        (* \b *)

Definition Lit (c : ascii) : regex := Cls [CChar c].
Definition Plus (r : regex) : regex := Seq r (Star r).
Definition Opt (r : regex) : regex := Or r Eps.

(** A literal word such as [page]. *)
Fixpoint Str (s : string) : regex :=
  match s with
  | EmptyString => Eps
  | String c EmptyString => Lit c
  | String c s' => Seq (Lit c) (Str s')
  end.

(** [r1|r2|...] *)
Fixpoint Alts (rs : list regex) : regex :=
  match rs with
  | [] => Cls []
  | [r] => r
  | r :: rs' => Or r (Alts rs')
  end.

(** [r{n,}] and [r{n,m}] (with [m = n + extra]). *)
Fixpoint AtLeast (n : nat) (r : regex) : regex :=
  match n with
  | O => Star r
  | S n' => Seq r (AtLeast n' r)
  end.

Fixpoint UpTo (extra : nat) (r : regex) : regex :=
  match extra with
  | O => Eps
  | S e => Opt (Seq r (UpTo e r))
  end.

Fixpoint Between (n extra : nat) (r : regex) : regex :=
  match n with
  | O => UpTo extra r
  | S n' => Seq r (Between n' extra r)
  end.

Definition cset_has (c : ascii) (it : cset) : bool :=
  match it with
  | CChar d => (code c =? code d)%N
  | CRange lo hi => in_range (code lo) (code hi) c
  | CSpace => is_space c
  end.

(** Membership in a bracket expression; under [re.IGNORECASE] a character
    also matches through its other case. *)
Definition cls_has (ignorecase : bool) (items : list cset) (c : ascii) : bool :=
  existsb (cset_has c) items ||
  (ignorecase &&
     (existsb (cset_has (lower_char c)) items || existsb (cset_has (upper_char c)) items)).

Definition word_at (s : list ascii) (i : nat) : bool :=
  match nth_error s i with Some c => is_word c | None => false end.

(** [\b] at position [i]: exactly one of the two neighbours is a word
    character. *)
Definition boundary_at (s : list ascii) (i : nat) : bool :=
  xorb (match i with O => false | S j => word_at s j end) (word_at s i).

(** [$]: the end of the text, or just before a final newline. *)
Definition eol_at (s : list ascii) (i : nat) : bool :=
  (i =? length s)%nat ||
  ((S i =? length s)%nat &&
     match nth_error s i with Some c => (code c =? 10)%N | None => false end).

(** Iterating a pattern body: every further round must consume input, so
    [fuel = length s] rounds are enough. *)
Fixpoint star_ends (step : nat -> list nat) (fuel : nat) (i : nat) : list nat :=
  i :: match fuel with
       | O => []
       | S n => flat_map (fun j => if (i <? j)%nat then star_ends step n j else [])
                         (step i)
       end.

(** [ends ic r s i]: the positions at which a match of [r] that starts at
    position [i] of [s] can end. *)
Fixpoint ends (ic : bool) (r : regex) (s : list ascii) (i : nat) : list nat :=
  match r with
  | Eps => [i]
  | Cls items =>
      match nth_error s i with
      | Some c => if cls_has ic items c then [S i] else []
      | None => []
      end
  | Seq r1 r2 => flat_map (ends ic r2 s) (ends ic r1 s i)
  | Or r1 r2 => ends ic r1 s i ++ ends ic r2 s i
  | Star r1 => star_ends (ends ic r1 s) (length s) i
  | Bol => if (i =? 0)%nat then [i] else []
  | Eol => if eol_at s i then [i] else []
  | WordB => if boundary_at s i then [i] else []
  end.

Definition matches_at (ic : bool) (r : regex) (s : list ascii) (i : nat) : bool :=
  match ends ic r s i with [] => false | _ => true end.

(** [bool(re.match(r, s, flags))]: a match anchored at the start. *)
Definition re_match (r : regex) (s : string) (ignorecase : bool) : bool :=
  matches_at ignorecase r (chars s) 0.

(** [bool(re.search(r, s, flags))]: a match starting anywhere. *)
Definition re_search (r : regex) (s : string) (ignorecase : bool) : bool :=
  existsb (matches_at ignorecase r (chars s)) (seq 0 (S (String.length s))).

Definition digit : regex := Cls [CRange "0" "9"].
Definition letter : regex := Cls [CRange "A" "Z"; CRange "a" "z"].
Definition space : regex := Cls [CSpace].

(** The meaning of a pattern, stated without reference to the matcher:
    [matches ic s r i j] when [r] matches the characters of [s] from
    position [i] up to position [j]. *)
Inductive matches (ic : bool) (s : list ascii) : regex -> nat -> nat -> Prop :=
| M_eps i :
    matches ic s Eps i i
| M_cls items i c :
    nth_error s i = Some c -> cls_has ic items c = true ->
    matches ic s (Cls items) i (S i)
| M_seq r1 r2 i j k :
    matches ic s r1 i j -> matches ic s r2 j k ->
    matches ic s (Seq r1 r2) i k
| M_or_l r1 r2 i j :
    matches ic s r1 i j -> matches ic s (Or r1 r2) i j
| M_or_r r1 r2 i j :
    matches ic s r2 i j -> matches ic s (Or r1 r2) i j
| M_star_nil r i :
    matches ic s (Star r) i i
| M_star_cons r i j k :
    matches ic s r i j -> matches ic s (Star r) j k ->
    matches ic s (Star r) i k
| M_bol :
    matches ic s Bol 0 0
| M_eol i :
    eol_at s i = true -> matches ic s Eol i i
| M_wordb i :
    boundary_at s i = true -> matches ic s WordB i i.

End Re.

(** ** Python values returned in dictionaries *)

Inductive pyval : Type :=
| VBool (b : bool)
| VInt (z : Z)
| VStr (s : string)
| VList (l : list string).

(** A [dict] literal, in insertion order. *)
Definition pydict : Type := list (string * pyval).

(** [d[k]]; [None] stands for [KeyError]. *)
Fixpoint getitem (d : pydict) (k : string) : option pyval :=
  match d with
  | [] => None
  | (k', v) :: d' => if String.eqb k k' then Some v else getitem d' k
  end.

(** ** scripts/partno_classifier.py *)

Module PartNumberClassifier.
Import PyStr Re.

(** The term sets of [__init__]; only membership tests ever read them, so
    the order of the listing is immaterial. *)
Definition common_prefixes : list string :=
  ["RAD"; "PIP"; "MIL"; "LIN"; "NOR"; "MSA"; "ESA"; "HYP";
   "KOI"; "WBU"; "CBR"; "HOU"; "BOS"; "VIC"; "AMS"; "E57";
   "NI"].
Definition consumer_products : list string :=
  ["iphone"; "macbook"; "surface"; "galaxy"; "kindle"; "gtx"].
Definition search_terms : list string :=
  ["how"; "what"; "where"; "when"; "why"; "find"; "best"; "good";
   "better"; "top"; "review"; "price"; "vs"; "versus"; "buy"; "compare"].
Definition sentence_words : list string :=
  ["a"; "an"; "the"; "of"; "in"; "for"; "to"; "with"; "by";
   "is"; "are"; "this"; "that"; "these"; "those"].
Definition doc_ref_terms : list string :=
  ["page"; "table"; "figure"; "section"; "chapter"; "version"].

(** The patterns, in the order in which the source uses them. *)

(* [0-9] *)
Definition rx_digit : regex := digit.
(* ^(page|table|figure|section|chapter|room)\s+[0-9] *)
Definition rx_doc_start : regex :=
  Seq Bol
    (Seq (Alts [Str "page"; Str "table"; Str "figure"; Str "section";
                Str "chapter"; Str "room"])
       (Seq (Plus space) digit)).
(* [A-Za-z] *)
Definition rx_letter : regex := letter.
(* [\-\./] *)
Definition rx_separator : regex := Cls [CChar "-"; CChar "."; CChar "/"].
(* ^[A-Za-z]{1,3}[0-9]{2,} *)
Definition rx_structure : regex :=
  Seq Bol (Seq (Between 1 2 letter) (AtLeast 2 digit)).
(* ^[A-Za-z] *)
Definition rx_starts_letter : regex := Seq Bol letter.
(* ^(p/n:|part|model|item|no\.)[\s:]+[a-z0-9] *)
Definition rx_label : regex :=
  Seq Bol
    (Seq (Alts [Str "p/n:"; Str "part"; Str "model"; Str "item"; Str "no."])
       (Seq (Plus (Cls [CSpace; CChar ":"]))
          (Cls [CRange "a" "z"; CRange "0" "9"]))).
(* ([A-Za-z]+[0-9]+){2,} *)
Definition rx_repeating : regex :=
  AtLeast 2 (Seq (Plus letter) (Plus digit)).
(* [0-9]{3,} *)
Definition rx_three_digits : regex := AtLeast 3 digit.
(* [A-Z0-9]+(XL|AL|/[SML]|EU)$ *)
Definition rx_suffix : regex :=
  Seq (Plus (Cls [CRange "A" "Z"; CRange "0" "9"]))
    (Seq (Alts [Str "XL"; Str "AL";
                Seq (Lit "/") (Cls [CChar "S"; CChar "M"; CChar "L"]);
                Str "EU"])
       Eol).
(* rf'\b{term}\b' *)
Definition rx_whole_word (term : string) : regex :=
  Seq WordB (Seq (Str term) WordB).

Definition IGNORECASE : bool := true.
Definition NOFLAG : bool := false.

(** [not query or not query.strip()] *)
Definition blank (query : string) : bool :=
  String.eqb query "" || String.eqb (strip query) "".

Definition nwords (words : list string) : Z := Z.of_nat (length words).

(** [any(re.search(rf'\b{t}\b', cleaned.lower()) for t in terms)] *)
Definition any_whole_word (terms : list string) (cleaned : string) : bool :=
  any (fun t => re_search (rx_whole_word t) (lower cleaned) NOFLAG) terms.

(** Conditional statements that update an accumulator:
    [if c: body] and [if c: body1 / elif ...: body2]. *)
Definition when {S : Type} (c : bool) (body : S -> S) (s : S) : S :=
  if c then body s else s.
Definition if_else {S : Type} (c : bool) (body1 body2 : S -> S) (s : S) : S :=
  if c then body1 s else body2 s.

(** [score += delta]; a negative [delta] is [score -= |delta|]. *)
Definition add (delta : Z) (score : Z) : Z := (score + delta)%Z.

(** [is_part_number], lines 34-144. *)
Definition is_part_number (query : string) : bool :=
  if blank query then false else
  let cleaned := strip query in
  let words := split cleaned in
  (* early rejection rules *)
  if negb (re_search rx_digit cleaned NOFLAG) then false else
  if (len cleaned <? 4)%Z then false else
  if (2 <? nwords words)%Z
     && any (fun term => contains term (lower cleaned)) search_terms
  then false else
  if re_match rx_doc_start cleaned IGNORECASE then false else
  let score := 0%Z in
  (* positive scoring factors *)
  let score :=
    when (re_search rx_letter cleaned NOFLAG && re_search rx_digit cleaned NOFLAG)
      (add 3) score in
  let score :=
    if_else ((5 <=? len cleaned)%Z && (len cleaned <=? 16)%Z)
      (add 2)
      (when ((16 <? len cleaned)%Z && (len cleaned <=? 20)%Z) (add 1))
      score in
  let score := when (re_search rx_separator cleaned NOFLAG) (add 2) score in
  let score :=
    when (any (fun prefix => startswith (upper cleaned) prefix) common_prefixes)
      (add 3) score in
  let score := when (re_match rx_structure cleaned NOFLAG) (add 2) score in
  let score := when (re_match rx_starts_letter cleaned NOFLAG) (add 1) score in
  let score := when (re_match rx_label cleaned IGNORECASE) (add 2) score in
  let score := when (re_search rx_repeating cleaned NOFLAG) (add 2) score in
  let score := when (re_search rx_three_digits cleaned NOFLAG) (add 1) score in
  let score := when (re_search rx_suffix cleaned IGNORECASE) (add 1) score in
  (* negative scoring factors *)
  let score := when (any_whole_word search_terms cleaned) (add (-4)) score in
  let score :=
    if_else (4 <=? nwords words)%Z
      (add (-4))
      (when (nwords words =? 3)%Z (add (-2)))
      score in
  let score := when (any_whole_word sentence_words cleaned) (add (-3)) score in
  let score := when (any_whole_word consumer_products cleaned) (add (-3)) score in
  let score := when (any_whole_word doc_ref_terms cleaned) (add (-3)) score in
  (4 <=? score)%Z.

(** The pair [(score, explanation)] that [explain_classification] builds,
    and one firing of a rule: [score += delta; explanation.append(msg)]. *)
Definition tally : Type := (Z * list string)%type.

Definition fire (delta : Z) (msg : string) (t : tally) : tally :=
  (add delta (fst t), snd t ++ [msg]).

Definition rejected (why : string) : pydict :=
  [("is_part_number", VBool false); ("explanation", VStr why)].

(** [explain_classification], lines 146-282. *)
Definition explain_classification (query : string) : pydict :=
  if blank query then rejected "Empty query" else
  let cleaned := strip query in
  let words := split cleaned in
  if negb (re_search rx_digit cleaned NOFLAG)
  then rejected "Rejected: Contains no digits" else
  if (len cleaned <? 4)%Z
  then rejected "Rejected: Too short (< 4 characters)" else
  if (2 <? nwords words)%Z
     && any (fun term => contains term (lower cleaned)) search_terms
  then rejected "Rejected: Multi-word query with search terms" else
  if re_match rx_doc_start cleaned IGNORECASE
  then rejected "Rejected: Starts with document reference term" else
  let t : tally := (0%Z, []) in
  let t :=
    when (re_search rx_letter cleaned NOFLAG && re_search rx_digit cleaned NOFLAG)
      (fire 3 "+3: Contains both letters and numbers") t in
  let t :=
    if_else ((5 <=? len cleaned)%Z && (len cleaned <=? 16)%Z)
      (fire 2 "+2: Length is in typical part number range (5-16)")
      (when ((16 <? len cleaned)%Z && (len cleaned <=? 20)%Z)
         (fire 1 "+1: Length is in acceptable part number range (17-20)"))
      t in
  let t :=
    when (re_search rx_separator cleaned NOFLAG)
      (fire 2 "+2: Contains a dash, dot or specific separator") t in
  let t :=
    when (any (fun prefix => startswith (upper cleaned) prefix) common_prefixes)
      (fire 3 "+3: Starts with a common part number prefix") t in
  let t :=
    when (re_match rx_structure cleaned NOFLAG)
      (fire 2 "+2: Has a typical part number pattern structure (letters then numbers)")
      t in
  let t :=
    when (re_match rx_starts_letter cleaned NOFLAG)
      (fire 1 "+1: Starts with letters") t in
  let t :=
    when (re_match rx_label cleaned IGNORECASE)
      (fire 2 "+2: Begins with specific part number prefix") t in
  let t :=
    when (re_search rx_repeating cleaned NOFLAG)
      (fire 2 "+2: Has repeating alpha-numeric patterns") t in
  let t :=
    when (re_search rx_three_digits cleaned NOFLAG)
      (fire 1 "+1: Contains numbers with 3+ digits") t in
  let t :=
    when (re_search rx_suffix cleaned IGNORECASE)
      (fire 1 "+1: Has a specific suffix (XL, AL, etc.)") t in
  let t :=
    when (any_whole_word search_terms cleaned)
      (fire (-4) "-4: Contains typical search terms") t in
  let t :=
    if_else (4 <=? nwords words)%Z
      (fire (-4) "-4: Has 4+ words separated by spaces")
      (when (nwords words =? 3)%Z
         (fire (-2) "-2: Has 3 words separated by spaces"))
      t in
  let t :=
    when (any_whole_word sentence_words cleaned)
      (fire (-3) "-3: Contains words that look like a sentence") t in
  let t :=
    when (any_whole_word consumer_products cleaned)
      (fire (-3) "-3: Contains a consumer product name") t in
  let t :=
    when (any_whole_word doc_ref_terms cleaned)
      (fire (-3) "-3: Contains common document references") t in
  let is_part_number := (4 <=? fst t)%Z in
  [("is_part_number", VBool is_part_number);
   ("score", VInt (fst t));
   ("explanation", VList (snd t));
   ("decision", VStr (if is_part_number then "IS A PART NUMBER" else "IS NOT A PART NUMBER"));
   ("threshold", VStr "Threshold: 4")].

End PartNumberClassifier.

(** ** scripts/partno_classifier.py: [main], lines 285-346 *)

Module ClassifierMain.
Import PyStr PartNumberClassifier.

(** What the program writes: lines on the standard output, the prompt of
    [input], and the help text of [argparse], which is not spelled out. *)
Inductive output : Type :=
| Stdout (line : string)
| Prompt (text : string)
| Help.

(** The exceptions that can end the program. *)
Inductive error : Type :=
| KeyError (key : string)
| TypeError (msg : string)
| EOFError.

(** The line feed, the quotation mark and the backslash. *)
Definition nl : string := String "010" "".
Definition dquote : ascii := "034".
Definition backslash : ascii := "092".

(** [str.isprintable] on one character of Latin-1. *)
Definition printable (c : ascii) : bool :=
  ((32 <=? code c)%N && (code c <? 127)%N)
  || ((161 <=? code c)%N && negb (code c =? 173)%N).

Definition hex_digit (n : N) : ascii :=
  if (n <? 10)%N then ascii_of_N (48 + n) else ascii_of_N (87 + n).

(** [repr(s)] for a string. *)
Definition repr_char (quote c : ascii) : string :=
  if Ascii.eqb c backslash || Ascii.eqb c quote then String backslash (String c "")
  else if (code c =? 9)%N then String backslash "t"
  else if (code c =? 10)%N then String backslash "n"
  else if (code c =? 13)%N then String backslash "r"
  else if printable c then String c ""
  else String backslash
         (String "x" (String (hex_digit (code c / 16)) (String (hex_digit (code c mod 16)) ""))).

Definition repr_str (s : string) : string :=
  let quote : ascii :=
    if existsb (Ascii.eqb "'") (chars s) && negb (existsb (Ascii.eqb dquote) (chars s))
    then dquote else "'"%char in
  String quote
    (String.append (String.concat "" (map (repr_char quote) (chars s))) (String quote "")).

(** [str(v)], as an f-string formats a value. *)
Definition str (v : pyval) : string :=
  match v with
  | VBool true => "True"
  | VBool false => "False"
  | VInt z => pretty z
  | VStr s => s
  | VList l =>
      String.append "[" (String.append (String.concat ", " (map repr_str l)) "]")
  end.

(** [for point in v]: the items of a list, the characters of a string. *)
Definition iter (v : pyval) : list string + error :=
  match v with
  | VList l => inl l
  | VStr s => inl (map (fun c => String c "") (chars s))
  | VBool _ => inr (TypeError "'bool' object is not iterable")
  | VInt _ => inr (TypeError "'int' object is not iterable")
  end.

(** Lines 318-324 and 333-339: the report of the explain mode.  [lead] is
    what precedes [Query:] on the first line. *)
Definition report (lead query : string) : list output * option error :=
  let result := explain_classification query in
  let out :=
    [Stdout (String.append lead
              (String.append "Query: '" (String.append query "'")))] in
  match getitem result "decision" with
  | None => (out, Some (KeyError "decision"))
  | Some decision =>
      let out := out ++ [Stdout (String.append "Decision: " (str decision))] in
      match getitem result "score" with
      | None => (out, Some (KeyError "score"))
      | Some score =>
          let out :=
            out ++ [Stdout (String.append "Score: "
                             (String.append (str score) " (Threshold: 4)"));
                    Stdout (String.append nl "Explanation:")] in
          match getitem result "explanation" with
          | None => (out, Some (KeyError "explanation"))
          | Some explanation =>
              match iter explanation with
              | inl points =>
                  (out ++ map (fun point => Stdout (String.append "  " point)) points,
                   None)
              | inr e => (out, Some e)
              end
          end
      end
  end.

(** Lines 326-327 and 341-342. *)
Definition verdict (query : string) : output :=
  Stdout (String.append "'"
           (String.append query
              (String.append "' "
                 (String.append (if is_part_number query then "IS" else "IS NOT")
                    " a part number")))).

(** [s[8:]] *)
Definition from_8 (s : string) : string := of_chars (drop 8 (chars s)).

(** The loop of the interactive mode, lines 302-327, over the lines that
    [input] reads; at the end of the input, [input] raises [EOFError]. *)
Fixpoint interactive_loop (stdin : list string) : list output * option error :=
  let prompt := Prompt (String.append nl "Enter query: ") in
  match stdin with
  | [] => ([prompt], Some EOFError)
  | line :: stdin' =>
      let user_input := strip line in
      if existsb (String.eqb (lower user_input)) ["exit"; "quit"]
      then ([prompt], None)
      else
        let explain_mode := startswith (lower user_input) "explain " in
        let user_input := if explain_mode then strip (from_8 user_input) else user_input in
        if String.eqb user_input ""
        then
          let '(out, e) := interactive_loop stdin' in
          (prompt :: Stdout "Please enter a query" :: out, e)
        else if explain_mode
        then
          match report nl user_input with
          | (out, None) =>
              let '(out', e) := interactive_loop stdin' in (prompt :: out ++ out', e)
          | (out, Some e) => (prompt :: out, Some e)
          end
        else
          let '(out, e) := interactive_loop stdin' in
          (prompt :: verdict user_input :: out, e)
  end.

(** The parsed command line. *)
Record Args : Type := mkArgs {
  query : option string;
  explain : bool;
  interactive : bool
}.

(** [main], after [parser.parse_args()]. *)
Definition main (args : Args) (stdin : list string) : list output * option error :=
  if interactive args
  then
    let '(out, e) := interactive_loop stdin in
    (Stdout "Part Number Classifier - Interactive Mode"
     :: Stdout "Enter 'exit' or 'quit' to end the program"
     :: Stdout "Enter 'explain' before your query to see detailed classification"
     :: out, e)
  else
    match query args with
    | Some q =>
        if String.eqb q "" then ([Help], None)
        else if explain args then report "" q
        else ([verdict q], None)
    | None => ([Help], None)
    end.

End ClassifierMain.

(** ** Floats

    A finite float is the rational it denotes; the literals below are the
    IEEE-754 doubles that Python reads from the source text. *)

Module PyFloat.

Abbreviation float := Q.

(** [x < y], [x > y] and [x >= y] on finite floats. *)
Definition lt (x y : float) : bool := (Qnum x * QDen y <? Qnum y * QDen x)%Z.
Definition gt (x y : float) : bool := lt y x.
Definition ge (x y : float) : bool := negb (lt x y).

(** [max(x, y)]: the first argument unless the second is greater. *)
Definition max (x y : float) : float := if gt y x then y else x.

Definition f_0_0 : float := 0%Q.
Definition f_1_0 : float := 1%Q.
(** 0.9, 0.4, 0.39 and 0.41 to the nearest double. *)
Definition f_0_9 : float := (8106479329266893 # 9007199254740992)%Q.
Definition f_0_4 : float := (3602879701896397 # 9007199254740992)%Q.
Definition f_0_39 : float := (3512807709348987 # 9007199254740992)%Q.
Definition f_0_41 : float := (7385903388887613 # 18014398509481984)%Q.

End PyFloat.

(** ** Exceptions

    All of these are instances of [Exception], which is what the
    [except Exception] clauses of the code catch. *)

Inductive exn : Type :=
| EmbeddingError (msg : string)
| StoreError (msg : string)
| TimeoutError (msg : string)
| IndexError (msg : string)
| ZeroDivisionError (msg : string).

(** The outcome of a call: a value, or a raised exception. *)
Inductive outcome (A : Type) : Type :=
| Return (a : A)
| Raise (e : exn).
Arguments Return {A} a.
Arguments Raise {A} e.

(** ** Sorting

    [sorted(l, key=key, reverse=True)] and [l.sort(key=key, reverse=True)]:
    a stable sort, largest key first; entries with equal keys keep their
    order. *)

Section Sorting.
Context {A : Type} (key : A -> PyFloat.float).

Fixpoint insert_desc (x : A) (l : list A) : list A :=
  match l with
  | [] => [x]
  | y :: l' =>
      if PyFloat.lt (key x) (key y)
      then y :: insert_desc x l'
      else x :: l
  end.

Definition sort_desc (l : list A) : list A := foldr insert_desc [] l.

End Sorting.

(** [l[:n]] for any integer [n]: a negative [n] counts from the end. *)
Definition slice_to {A : Type} (l : list A) (n : Z) : list A :=
  if (0 <=? n)%Z then take (Z.to_nat n) l
  else take (length l - Z.to_nat (- n)) l.

(** ** scripts/parallel_search_fusion.py: results and their fusion *)

(** [Dict[str, Any]] payloads; the code only ever reads the part-number
    text out of them. *)
Definition Payload : Type := list (string * string).

(** [payload.get(key, default)] *)
Fixpoint payload_get (p : Payload) (key default : string) : string :=
  match p with
  | [] => default
  | (k, v) :: p' => if String.eqb key k then v else payload_get p' key default
  end.

(** The dataclass [SearchResult]. *)
Record SearchResult : Type := mkSearchResult {
  id : string;
  score : PyFloat.float;
  payload : Payload;
  search_type : string;
  qdrant_id : option string;
  boost_factor : PyFloat.float
}.

(** [SearchResult] instances are mutable objects: lists hold references to
    them and [simple_fusion] writes to their [search_type] attribute.  The
    object store maps every reference to the object it denotes. *)
Definition ref : Type := nat.
Definition heap : Type := ref -> SearchResult.

Definition with_search_type (o : SearchResult) (ty : string) : SearchResult :=
  {| id := id o; score := score o; payload := payload o; search_type := ty;
     qdrant_id := qdrant_id o; boost_factor := boost_factor o |}.

(** [r.search_type = ty] *)
Definition set_search_type (h : heap) (r : ref) (ty : string) : heap :=
  fun x => if Nat.eqb x r then with_search_type (h x) ty else h x.

(** [h[r] = o], used when an object is created. *)
Definition store (h : heap) (r : ref) (o : SearchResult) : heap :=
  fun x => if Nat.eqb x r then o else h x.

Module Fusion.

(** The loop state of [simple_fusion]: the objects, the dictionary
    [seen_ids] and the list [fused_results]. *)
Record state : Type := mkState {
  objs : heap;
  seen_ids : gmap string ref;
  fused_results : list ref
}.

(** f"{a}+{b}" *)
Definition plus_types (a b : string) : string := String.append a (String.append "+" b).

(** Lines 195-198: the first entry whose id is [result_id] is overwritten. *)
Fixpoint replace_in_list (h : heap) (result_id : string) (result : ref)
         (l : list ref) : list ref :=
  match l with
  | [] => []
  | res :: l' =>
      if String.eqb (id (h res)) result_id
      then result :: l'
      else res :: replace_in_list h result_id result l'
  end.

(** One iteration of the loop of lines 180-201. *)
Definition step (st : state) (result : ref) : state :=
  let h := objs st in
  let result_id := id (h result) in
  match seen_ids st !! result_id with
  | None =>
      {| objs := h;
         seen_ids := <[result_id := result]> (seen_ids st);
         fused_results := fused_results st ++ [result] |}
  | Some existing =>
      if PyFloat.gt (score (h result)) (score (h existing))
      then
        let h' := set_search_type h result
                    (plus_types (search_type (h existing)) (search_type (h result))) in
        {| objs := h';
           seen_ids := <[result_id := result]> (seen_ids st);
           fused_results := replace_in_list h' result_id result (fused_results st) |}
      else
        {| objs := set_search_type h existing
                     (plus_types (search_type (h existing)) (search_type (h result)));
           seen_ids := seen_ids st;
           fused_results := fused_results st |}
  end.

Definition run (h : heap) (all_results : list ref) : state :=
  foldl step {| objs := h; seen_ids := ∅; fused_results := [] |} all_results.

(** [simple_fusion], lines 168-209 (without the timing statistics): the
    objects after the call and the list returned, sorted by
    [fused_results.sort(key=lambda x: x.score, reverse=True)]. *)
Definition simple_fusion (h : heap) (exact_results vector_results : list ref)
  : heap * list ref :=
  let all_results := exact_results ++ vector_results in
  let st := run h all_results in
  (objs st, sort_desc (fun x => score (objs st x)) (fused_results st)).

End Fusion.

(** ** The collaborators: the Qdrant client and the embedding model *)

Module Qdrant.

(** Point ids are integers or UUID strings. *)
Inductive PointId : Type :=
| IntId (n : Z)
| UuidId (u : string).

(** [str(point.id)] *)
Definition str (i : PointId) : string :=
  match i with
  | IntId n => pretty n
  | UuidId u => u
  end.

(** What [scroll] yields (no score) and what [query_points] yields. *)
Record Record_ : Type := mkRecord {
  record_id : PointId;
  record_payload : Payload
}.

Record ScoredPoint : Type := mkScoredPoint {
  point_id : PointId;
  point_score : PyFloat.float;
  point_payload : Payload
}.

End Qdrant.

(** ** scripts/indexing.py: [reciprocal_rank_fusion], lines 707-774 *)

Module RRF.
Import Qdrant.

Definition PointId_eqb (a b : PointId) : bool :=
  match a, b with
  | IntId n, IntId m => (n =? m)%Z
  | UuidId u, UuidId v => String.eqb u v
  | _, _ => false
  end.

(** The values of the dictionary [fused_scores]. *)
Record entry : Type := mkEntry {
  rrf_score : PyFloat.float;
  dense_rank : Z;
  sparse_rank : Z;
  dense_score : PyFloat.float;
  sparse_score : PyFloat.float;
  point : ScoredPoint
}.

(** [fused_scores], in insertion order. *)
Definition scores : Type := list (PointId * entry).

Fixpoint lookup (d : scores) (doc_id : PointId) : option entry :=
  match d with
  | [] => None
  | (i, e) :: d' => if PointId_eqb doc_id i then Some e else lookup d' doc_id
  end.

(** [d[doc_id] = f(d[doc_id])] for a key that is present. *)
Fixpoint update (d : scores) (doc_id : PointId) (f : entry -> entry) : scores :=
  match d with
  | [] => []
  | (i, e) :: d' =>
      if PointId_eqb doc_id i then (i, f e) :: d' else (i, e) :: update d' doc_id f
  end.

(** [d[doc_id] = e], for a new key or an old one. *)
Definition setitem (d : scores) (doc_id : PointId) (e : entry) : scores :=
  match lookup d doc_id with
  | Some _ => update d doc_id (fun _ => e)
  | None => d ++ [(doc_id, e)]
  end.



Definition set_sparse (rank : Z) (s : PyFloat.float) (e : entry) : entry :=
  {| rrf_score := rrf_score e;
     dense_rank := dense_rank e; sparse_rank := rank;
     dense_score := dense_score e; sparse_score := s;
     point := point e |}.




(** [point.score = item['rrf_score']]: the point with its score
    overwritten. *)
Definition scored (e : entry) : ScoredPoint :=
  {| point_id := point_id (point e);
     point_score := rrf_score e;
     point_payload := point_payload (point e) |}.


End RRF.

(** ** scripts/indexing.py: [_linear_fusion], lines 776-816 *)

Module Linear.
Import Qdrant.

(** The values of the dictionary [combined_scores]. *)
Record item : Type := mkItem {
  dense_score : PyFloat.float;
  sparse_score : PyFloat.float;
  point : ScoredPoint
}.

(** [combined_scores], in insertion order. *)
Definition combined : Type := list (PointId * item).

Fixpoint lookup (d : combined) (doc_id : PointId) : option item :=
  match d with
  | [] => None
  | (i, e) :: d' => if RRF.PointId_eqb doc_id i then Some e else lookup d' doc_id
  end.

(** [d[doc_id] = f(d[doc_id])] for a key that is present. *)
Fixpoint update (d : combined) (doc_id : PointId) (f : item -> item) : combined :=
  match d with
  | [] => []
  | (i, e) :: d' =>
      if RRF.PointId_eqb doc_id i then (i, f e) :: d' else (i, e) :: update d' doc_id f
  end.

(** [d[doc_id] = e]: a key that is present keeps its place. *)
Definition setitem (d : combined) (doc_id : PointId) (e : item) : combined :=
  match lookup d doc_id with
  | Some _ => update d doc_id (fun _ => e)
  | None => d ++ [(doc_id, e)]
  end.

Definition set_sparse (s : PyFloat.float) (e : item) : item :=
  {| dense_score := dense_score e; sparse_score := s; point := point e |}.



(** [fusion_alpha * item['dense_score'] + (1 - fusion_alpha) * item['sparse_score']] *)
Definition fusion_score (fusion_alpha : PyFloat.float) (e : item) : PyFloat.float :=
  (fusion_alpha * dense_score e + (1 - fusion_alpha) * sparse_score e)%Q.

(** [point.score = item['fusion_score']] *)
Definition scored (fusion_alpha : PyFloat.float) (e : item) : ScoredPoint :=
  {| point_id := point_id (point e);
     point_score := fusion_score fusion_alpha e;
     point_payload := point_payload (point e) |}.


End Linear.

(** ** scripts/indexing.py: [normalize_scores], lines 818-838 *)

Section Normalize.

(** [x ** 0.5] on floats, which has no exact counterpart on rationals. *)
Variable pow_half : PyFloat.float -> PyFloat.float.




End Normalize.

(** ** scripts/parallel_search_fusion.py: the searchers and the orchestrator *)

Module Search.
Import Qdrant.

(** The requests sent to the collaborators, logged in the order issued. *)
Inductive call : Type :=
| CallScroll (collection field value : string) (limit : Z)
| CallQueryPoints (collection : string) (query : list PyFloat.float) (limit : Z)
| CallQueryEmbed (texts : list string).

Section Engine.

(** The state of the outside world (vector store and embedding model),
    and how it answers each request. *)
Context {Env : Type}.

Record Collaborators : Type := mkCollaborators {
  (** [client.scroll(collection_name, scroll_filter=<key == value>, limit)]:
      the points and the next page offset. *)
  client_scroll :
    string -> string -> string -> Z -> Env ->
    outcome (list Record_ * option PointId) * Env;
  (** [client.query_points(collection_name, query, using="dense", limit)] *)
  client_query_points :
    string -> list PyFloat.float -> Z -> Env ->
    outcome (list ScoredPoint) * Env;
  (** [list(model.query_embed(texts))] *)
  model_query_embed :
    list string -> Env -> outcome (list (list PyFloat.float)) * Env
}.

Variable C : Collaborators.
Variable collection_name : string.

(** Everything a call may read or change. *)
Record World : Type := mkWorld {
  env : Env;
  objects : heap;
  next_ref : ref;
  embedding_cache : list (string * list PyFloat.float);
  calls : list call
}.

Definition M (A : Type) : Type := World -> outcome A * World.

Definition ret {A} (a : A) : M A := fun w => (Return a, w).
Definition raise {A} (e : exn) : M A := fun w => (Raise e, w).
Definition bind {A B} (m : M A) (k : A -> M B) : M B :=
  fun w => match m w with
           | (Return a, w') => k a w'
           | (Raise e, w') => (Raise e, w')
           end.
(** [try: m / except Exception as e: handler(e)] *)
Definition try_except {A} (m : M A) (handler : exn -> M A) : M A :=
  fun w => match m w with
           | (Return a, w') => (Return a, w')
           | (Raise e, w') => handler e w'
           end.

Notation "'do' x <- m 'in' k" := (bind m (fun x => k))
  (at level 10, x name, m at level 100, k at level 200).

Definition log (c : call) (w : World) : World :=
  {| env := env w; objects := objects w; next_ref := next_ref w;
     embedding_cache := embedding_cache w; calls := calls w ++ [c] |}.

Definition with_env (e : Env) (w : World) : World :=
  {| env := e; objects := objects w; next_ref := next_ref w;
     embedding_cache := embedding_cache w; calls := calls w |}.

Definition with_cache (c : list (string * list PyFloat.float)) (w : World) : World :=
  {| env := env w; objects := objects w; next_ref := next_ref w;
     embedding_cache := c; calls := calls w |}.

(** A request to a collaborator: logged, then answered by the world. *)
Definition request {A} (c : call) (answer : Env -> outcome A * Env) : M A :=
  fun w => let '(r, e) := answer (env w) in (r, with_env e (log c w)).

Definition scroll (field value : string) (limit : Z)
  : M (list Record_ * option PointId) :=
  request (CallScroll collection_name field value limit)
          (client_scroll C collection_name field value limit).

Definition query_points (query : list PyFloat.float) (limit : Z)
  : M (list ScoredPoint) :=
  request (CallQueryPoints collection_name query limit)
          (client_query_points C collection_name query limit).

Definition query_embed (texts : list string) : M (list (list PyFloat.float)) :=
  request (CallQueryEmbed texts) (model_query_embed C texts).

(** [SearchResult(...)]: a fresh object. *)
Definition new (o : SearchResult) : M ref :=
  fun w => (Return (next_ref w),
            {| env := env w; objects := store (objects w) (next_ref w) o;
               next_ref := S (next_ref w);
               embedding_cache := embedding_cache w; calls := calls w |}).

(** [for p in points: results.append(make(p))] *)
Fixpoint append_all {P} (make : P -> SearchResult) (points : list P)
         (results : list ref) : M (list ref) :=
  match points with
  | [] => ret results
  | p :: points' =>
      do r <- new (make p) in append_all make points' (results ++ [r])
  end.

(** *** [_get_embedding_cached], lines 63-71 *)

(** The body: the first of the embeddings, and on any exception a vector
    of 384 zeros. *)
Definition embedding_uncached (text : string) : M (list PyFloat.float) :=
  try_except
    (do vectors <- query_embed [text] in
     match vectors with
     | query_vector :: _ => ret query_vector
     | [] => raise (IndexError "list index out of range")
     end)
    (fun _ => ret (repeat PyFloat.f_0_0 384)).

Definition cache_find (text : string) (c : list (string * list PyFloat.float))
  : option (list PyFloat.float) :=
  snd <$> find (fun kv => String.eqb (fst kv) text) c.

Definition cache_drop (text : string) (c : list (string * list PyFloat.float))
  : list (string * list PyFloat.float) :=
  filter (fun kv => negb (String.eqb (fst kv) text)) c.

Definition maxsize : nat := 2000.

(** [@lru_cache(maxsize=2000)]: entries are kept most recently used
    first; whatever the body returns is stored. *)
Definition _get_embedding_cached (text : string) : M (list PyFloat.float) :=
  fun w =>
    match cache_find text (embedding_cache w) with
    | Some v =>
        (Return v, with_cache ((text, v) :: cache_drop text (embedding_cache w)) w)
    | None =>
        match embedding_uncached text w with
        | (Return v, w') =>
            (Return v, with_cache (take maxsize ((text, v) :: embedding_cache w')) w')
        | (Raise e, w') => (Raise e, w')
        end
    end.

(** *** [exact_search_async], lines 73-122 *)

Definition search_fields : list (string * PyFloat.float * string) :=
  [("partNumber_airgas_text", PyFloat.f_1_0, "exact");
   ("manufacturerPartNumber_text", PyFloat.f_0_9, "exact_mfg")].

Definition exact_result (normalized_score : PyFloat.float) (search_type : string)
           (point : Record_) : SearchResult :=
  {| id := payload_get (record_payload point) "partNumber_airgas_text"
             (str (record_id point));
     score := normalized_score;
     payload := record_payload point;
     search_type := search_type;
     qdrant_id := Some (str (record_id point));
     boost_factor := PyFloat.f_1_0 |}.

Inductive loop_exit : Type := Break | Continue.

Definition nonempty {A} (l : list A) : bool :=
  match l with [] => false | _ => true end.

(** The body of the loop over the fields, lines 88-114.  Within the [try]
    only the request to the store can raise: building a [SearchResult]
    from a point reads its payload dictionary with [get] and cannot fail,
    so [results] grows by all the points of an answer or by none. *)
Definition exact_field (clean_query : string) (count : Z)
           (field : string * PyFloat.float * string) (results : list ref)
  : M (loop_exit * list ref) :=
  let '(field_name, normalized_score, search_type) := field in
  try_except
    (do qdrant_results <- scroll field_name clean_query (Z.min count 10) in
     do results <- append_all (exact_result normalized_score search_type)
                  (fst qdrant_results) results in
     if nonempty results && String.eqb search_type "exact"
     then ret (Break, results)
     else ret (Continue, results))
    (fun _ => ret (Continue, results)).

Fixpoint exact_fields (clean_query : string) (count : Z)
         (fields : list (string * PyFloat.float * string)) (results : list ref)
  : M (list ref) :=
  match fields with
  | [] => ret results
  | field :: fields' =>
      do r <- exact_field clean_query count field results in
      match r with
      | (Break, results) => ret results
      | (Continue, results) => exact_fields clean_query count fields' results
      end
  end.

Definition exact_search_async (query : string) (count : Z) : M (list ref) :=
  let clean_query := PyStr.upper (PyStr.strip query) in
  exact_fields clean_query count search_fields [].

(** *** [vector_search_async], lines 124-166 *)

Definition vector_result (point : ScoredPoint) : SearchResult :=
  {| id := payload_get (point_payload point) "partNumber_airgas_text"
             (str (point_id point));
     score := point_score point;
     payload := point_payload point;
     search_type := "vector";
     qdrant_id := Some (str (point_id point));
     boost_factor := PyFloat.f_1_0 |}.

(** [point.score >= 0.4] *)
Definition relevant (point : ScoredPoint) : bool :=
  PyFloat.ge (point_score point) PyFloat.f_0_4.

(** An exception can only come from the embedding lookup or the request to
    the index, both before the first [append]: the handler finds [results]
    empty. *)

Definition vector_search_async (query : string) (count : Z) : M (list ref) :=
  try_except
    (do query_vector <- _get_embedding_cached query in
     do qdrant_results <- query_points query_vector count in
     append_all vector_result (List.filter relevant qdrant_results) [])
    (fun _ => ret []).

(** *** [parallel_search], lines 211-240

    Neither coroutine ever awaits, so [asyncio.gather] runs the exact
    search to its end and then the vector search. *)

Definition simple_fusion (exact_results vector_results : list ref) : M (list ref) :=
  fun w =>
    let '(h, fused_results) :=
      Fusion.simple_fusion (objects w) exact_results vector_results in
    (Return fused_results,
     {| env := env w; objects := h; next_ref := next_ref w;
        embedding_cache := embedding_cache w; calls := calls w |}).

Definition parallel_search (query : string) (count : Z) : M (list ref) :=
  do exact_results <- exact_search_async query count in
  do vector_results <- vector_search_async query (count * 2) in
  do fused_results <- simple_fusion exact_results vector_results in
  ret (slice_to fused_results count).

End Engine.

Arguments Collaborators Env : clear implicits.
Arguments World Env : clear implicits.

End Search.

(** ** scripts/parallel_search_fusion.py: [clear_cache], lines 258-261 *)

Section CacheControl.
Import Search.
Context {Env : Type}.

(** [self._get_embedding_cached.cache_clear()] *)
Definition clear_cache : M (Env := Env) unit :=
  fun w => (Return tt, with_cache [] w).

End CacheControl.

(** ** Vocabulary for the searchers *)

Section SearchVocabulary.
Import Qdrant Search.
Context {Env : Type} (C : Collaborators Env) (collection_name : string).

(** A call keeps the objects that existed before it. *)
Definition keeps_objects (w w' : World Env) : Prop :=
  next_ref w <= next_ref w'
  /\ forall x, x < next_ref w -> objects w' x = objects w x.

(** The hits of the exact search, read off the answers of the store: the
    points filed under the primary field if there are any, otherwise those
    filed under the manufacturer field; a request that fails counts for
    nothing. *)
Definition exact_hits (query : string) (count : Z) (e : Env) : list SearchResult :=
  let clean_query := PyStr.upper (PyStr.strip query) in
  let limit := Z.min count 10 in
  let primary :=
    client_scroll C collection_name "partNumber_airgas_text" clean_query limit e in
  match fst primary with
  | Return (p :: ps, _) => map (exact_result PyFloat.f_1_0 "exact") (p :: ps)
  | _ =>
      match fst (client_scroll C collection_name "manufacturerPartNumber_text"
                   clean_query limit (snd primary)) with
      | Return (points, _) => map (exact_result PyFloat.f_0_9 "exact_mfg") points
      | Raise _ => []
      end
  end.

(** The requests the exact search sends: the lookup under the primary
    field, and the one under the manufacturer field unless the first found
    something. *)
Definition exact_requests (query : string) (count : Z) (e : Env) : list call :=
  let clean_query := PyStr.upper (PyStr.strip query) in
  let limit := Z.min count 10 in
  let primary :=
    client_scroll C collection_name "partNumber_airgas_text" clean_query limit e in
  CallScroll collection_name "partNumber_airgas_text" clean_query limit
  :: match fst primary with
     | Return (_ :: _, _) => []
     | _ => [CallScroll collection_name "manufacturerPartNumber_text" clean_query limit]
     end.

(** The hits of the vector search, read off the answer of the index. *)
Definition vector_hits (answer : outcome (list ScoredPoint)) : list SearchResult :=
  match answer with
  | Return points => map vector_result (List.filter relevant points)
  | Raise _ => []
  end.

End SearchVocabulary.

(** ** Vocabulary for the loop of [simple_fusion]

    The notions in which the loop invariant is stated.  [h0] is the object
    store when [simple_fusion] is entered. *)

Section LoopVocabulary.
Import Fusion.
Variable h0 : heap.

Definition id0 (r : ref) : string := id (h0 r).
Definition score0 (r : ref) : PyFloat.float := score (h0 r).

(** The best score seen so far for id [i], as Python's [max] computes it
    when the hits are read in order. *)
Definition best_step (i : string) (acc : option PyFloat.float) (x : ref)
  : option PyFloat.float :=
  if String.eqb (id0 x) i
  then Some (match acc with None => score0 x | Some a => PyFloat.max a (score0 x) end)
  else acc.

Definition best (pre : list ref) (i : string) : option PyFloat.float :=
  foldl (best_step i) None pre.

Definition has_id (i : string) (l : list ref) : bool :=
  existsb (fun y => String.eqb (id0 y) i) l.

(** What holds of the loop state once the hits [pre] have been read. *)
Record inv (pre : list ref) (st : state) : Prop := mkInv {
  inv_same : forall x, id (objs st x) = id0 x /\ score (objs st x) = score0 x;
  inv_nodup : NoDup (map id0 (fused_results st));
  inv_seen : forall i r,
    seen_ids st !! i = Some r <-> r ∈ fused_results st /\ id0 r = i;
  inv_best : forall i, score0 <$> (seen_ids st !! i) = best pre i;
  inv_len : length (fused_results st) <= length pre;
  inv_sub : forall r, r ∈ fused_results st -> r ∈ pre
}.

End LoopVocabulary.

(** ** Vocabulary for the reciprocal rank fusion *)

Section RankVocabulary.
Import Qdrant RRF.
Local Open Scope Q_scope.







End RankVocabulary.

(** ** Vocabulary for the linear fusion *)

Section LinearVocabulary.
Import Qdrant.





End LinearVocabulary.

(** ** Vocabulary for the classifier *)

Section ClassifierVocabulary.
Import PyStr Re PartNumberClassifier.

(** Every character. *)
Definition all_ascii : list ascii := map ascii_of_nat (seq 0 256).

(** [case_closed ic r]: no character class of the pattern [r], read with
    the flag [ic], tells a character from its lower-case form. *)
Fixpoint case_closed (ic : bool) (r : regex) : bool :=
  match r with
  | Cls items =>
      forallb (fun c => Bool.eqb (cls_has ic items (lower_char c)) (cls_has ic items c))
              all_ascii
  | Seq r1 r2 | Or r1 r2 => case_closed ic r1 && case_closed ic r2
  | Star r1 => case_closed ic r1
  | Eps | Bol | Eol | WordB => true
  end.

(** The number at the head of an explanation line such as
    ["+3: Contains both letters and numbers"]. *)
Definition delta_of (msg : string) : Z :=
  match msg with
  | String sign (String d _) =>
      let v := (Z.of_N (code d) - 48)%Z in
      if (code sign =? 45)%N then (- v)%Z else v
  | _ => 0%Z
  end.

Definition explained_total (lines : list string) : Z :=
  fold_right (fun msg acc => (delta_of msg + acc)%Z) 0%Z lines.

(** The early rejection rules, lines 45-70 and 158-183. *)
Definition early_rejected (query : string) : bool :=
  blank query
  || negb (re_search rx_digit (strip query) NOFLAG)
  || (len (strip query) <? 4)%Z
  || ((2 <? nwords (split (strip query)))%Z
      && any (fun term => contains term (lower (strip query))) search_terms)
  || re_match rx_doc_start (strip query) IGNORECASE.

End ClassifierVocabulary.

(** ** Example worlds

    Small stores, models and object tables on which the statements below
    are evaluated. *)

Module Demo.
Import Qdrant Search.

Definition part (number : string) : Payload :=
  [("partNumber_airgas_text", number)].

Definition hits : list ScoredPoint :=
  [mkScoredPoint (IntId 7) (3 # 4) (part "HYP220479");
   mkScoredPoint (IntId 3) (1 # 2) (part "A");
   mkScoredPoint (IntId 9) PyFloat.f_0_39 (part "B");
   mkScoredPoint (UuidId "u-1") PyFloat.f_0_41 []].

Definition embed (texts : list string) : list (list PyFloat.float) :=
  map (fun _ => [1 # 2; 1 # 4]%Q) texts.

(** One product filed under its part number; every query to the index is
    answered with [hits]. *)
Definition catalog : Collaborators unit :=
  {| client_scroll := fun _ field value _ e =>
       if String.eqb field "partNumber_airgas_text" && String.eqb value "HYP220479"
       then (Return ([mkRecord (IntId 7) (part "HYP220479")], None), e)
       else (Return ([], None), e);
     client_query_points := fun _ _ _ e => (Return hits, e);
     model_query_embed := fun texts e => (Return (embed texts), e) |}.

(** The same store behind a model that fails. *)
Definition broken_model : Collaborators unit :=
  {| client_scroll := client_scroll catalog;
     client_query_points := client_query_points catalog;
     model_query_embed := fun _ e => (Raise (EmbeddingError "model failure"), e) |}.

(** A store whose every request runs into the client's timeout. *)
Definition timed_out : Collaborators unit :=
  {| client_scroll := fun _ _ _ _ e => (Raise (TimeoutError "timed out"), e);
     client_query_points := fun _ _ _ e => (Raise (TimeoutError "timed out"), e);
     model_query_embed := fun texts e => (Return (embed texts), e) |}.

(** A store that answers, and holds nothing. *)
Definition empty_store : Collaborators unit :=
  {| client_scroll := fun _ _ _ _ e => (Return ([], None), e);
     client_query_points := fun _ _ _ e => (Return [], e);
     model_query_embed := fun texts e => (Return (embed texts), e) |}.

(** No product is filed under the query; the index finds three. *)
Definition torch_index : Collaborators unit :=
  {| client_scroll := fun _ _ _ _ e => (Return ([], None), e);
     client_query_points := fun _ _ _ e =>
       (Return [mkScoredPoint (IntId 11) (65 # 100) (part "T-1");
                mkScoredPoint (IntId 12) (55 # 100) (part "T-2");
                mkScoredPoint (IntId 13) (42 # 100) (part "T-3")], e);
     model_query_embed := fun texts e => (Return (embed texts), e) |}.

(** One product is filed under the query; the index finds it too, between
    two others. *)
Definition part_index : Collaborators unit :=
  {| client_scroll := client_scroll catalog;
     client_query_points := fun _ _ _ e =>
       (Return [mkScoredPoint (IntId 21) (8 # 10) (part "P-1");
                mkScoredPoint (IntId 7) (7 # 10) (part "HYP220479");
                mkScoredPoint (IntId 22) (6 # 10) (part "P-2")], e);
     model_query_embed := fun texts e => (Return (embed texts), e) |}.

(** What a caller reads off a result. *)
Definition summary (r : outcome (list ref) * World unit)
  : outcome (list (string * PyFloat.float * string)) :=
  match r with
  | (Return l, w) =>
      Return (map (fun x => (id (objects w x), score (objects w x),
                             search_type (objects w x))) l)
  | (Raise e, _) => Raise e
  end.

Definition hit (number : string) (s : PyFloat.float) (ty : string) : SearchResult :=
  {| id := number; score := s; payload := part number; search_type := ty;
     qdrant_id := None; boost_factor := PyFloat.f_1_0 |}.

(** Four result objects: an exact hit and three vector hits, the first of
    them for the same product. *)
Definition objects0 : heap :=
  fun r =>
    match r with
    | 0 => hit "HYP220479" PyFloat.f_1_0 "exact"
    | 1 => hit "HYP220479" (3 # 4) "vector"
    | 2 => hit "A" (1 # 2) "vector"
    | _ => hit "B" PyFloat.f_0_41 "vector"
    end.

Definition w0 : World unit :=
  {| env := tt; objects := objects0; next_ref := 4;
     embedding_cache := []; calls := [] |}.



End Demo.

(** * Theorems *)

(** ** Facts about floats, sorting and slicing *)

Section Basics.

Lemma lt_irrefl (x : PyFloat.float) : PyFloat.lt x x = false.
Proof. unfold PyFloat.lt. apply Z.ltb_irrefl. Qed.

Lemma lt_spec (x y : PyFloat.float) : PyFloat.lt x y = true <-> (x < y)%Q.
Proof. unfold PyFloat.lt, Qlt. apply Z.ltb_lt. Qed.

Lemma ge_spec (x y : PyFloat.float) : PyFloat.ge x y = true <-> (y <= x)%Q.
Proof.
  unfold PyFloat.ge, PyFloat.lt, Qle. rewrite negb_true_iff, Z.ltb_ge. tauto.
Qed.

Lemma max_idem (x : PyFloat.float) : PyFloat.max x x = x.
Proof. unfold PyFloat.max, PyFloat.gt. now rewrite lt_irrefl. Qed.

Lemma max_absorb (x y : PyFloat.float) :
  PyFloat.max (PyFloat.max x y) y = PyFloat.max x y.
Proof.
  unfold PyFloat.max, PyFloat.gt.
  destruct (PyFloat.lt x y) eqn:E; [now rewrite lt_irrefl | now rewrite E].
Qed.

Lemma max_ge_l (x y : PyFloat.float) : (x <= PyFloat.max x y)%Q.
Proof.
  unfold PyFloat.max, PyFloat.gt.
  destruct (PyFloat.lt x y) eqn:E; [|apply Qle_refl].
  apply Qlt_le_weak. now apply lt_spec.
Qed.

Lemma max_ge_r (x y : PyFloat.float) : (y <= PyFloat.max x y)%Q.
Proof.
  unfold PyFloat.max, PyFloat.gt.
  destruct (PyFloat.lt x y) eqn:E; [apply Qle_refl|].
  apply Qnot_lt_le. intros H. apply lt_spec in H. congruence.
Qed.

Context {A : Type} (key : A -> PyFloat.float).

Lemma insert_desc_perm (x : A) (l : list A) : insert_desc key x l ≡ₚ x :: l.
Proof.
  induction l as [|y l IH]; simpl; [done|].
  destruct (PyFloat.lt (key x) (key y)); [|done].
  rewrite IH. apply Permutation_swap.
Qed.

Lemma sort_desc_perm (l : list A) : sort_desc key l ≡ₚ l.
Proof.
  induction l as [|x l IH]; simpl; [done|].
  rewrite insert_desc_perm. now rewrite IH.
Qed.

Lemma slice_to_length (l : list A) (n : Z) :
  (0 <= n)%Z -> (Z.of_nat (length (slice_to l n)) <= n)%Z.
Proof.
  intros Hn. unfold slice_to.
  destruct (0 <=? n)%Z eqn:E; [|lia].
  rewrite length_take. lia.
Qed.

Lemma slice_to_sublist (l : list A) (n : Z) : slice_to l n `prefix_of` l.
Proof. unfold slice_to. destruct (0 <=? n)%Z; apply prefix_take. Qed.

End Basics.

(** ** The matcher and the meaning of patterns *)

Section RegexFacts.
Import PyStr Re.
Variable ic : bool.
Variable s : list ascii.

(** A match never moves backwards, and it only consumes characters that
    are there. *)
Lemma matches_bounds (r : regex) (i j : nat) :
  matches ic s r i j -> i <= j /\ j <= Nat.max i (length s).
Proof.
  induction 1 as [i|items i c Hc _|r1 r2 i j k _ IH1 _ IH2|r1 r2 i j _ IH
                  |r1 r2 i j _ IH|r i|r i j k _ IH1 _ IH2| |i _|i _]; try lia.
  assert (i < length s) by (apply nth_error_Some; congruence). lia.
Qed.

Lemma star_ends_head (step : nat -> list nat) (fuel i : nat) :
  In i (star_ends step fuel i).
Proof. destruct fuel; now left. Qed.

Lemma star_ends_next (step : nat -> list nat) (fuel i m k : nat) :
  In m (step i) -> i < m -> In k (star_ends step fuel m) ->
  In k (star_ends step (S fuel) i).
Proof.
  intros Hm Him Hk. simpl. right. apply in_flat_map. exists m.
  split; [done|]. now rewrite (proj2 (Nat.ltb_lt i m) Him).
Qed.

Lemma star_ends_inv (step : nat -> list nat) (fuel i k : nat) :
  In k (star_ends step fuel i) ->
  k = i \/ exists fuel' m,
      fuel = S fuel' /\ In m (step i) /\ i < m /\ In k (star_ends step fuel' m).
Proof.
  destruct fuel as [|n]; simpl.
  - intros [<-|[]]. now left.
  - intros [<-|H]; [now left|]. right.
    apply in_flat_map in H as (m & Hm & Hk).
    destruct (Nat.ltb_spec i m); [|done]. eauto 10.
Qed.

(** Every round of a repetition consumes input, so the rounds are bounded
    by what is left of the text. *)
Lemma star_ends_enough (step : nat -> list nat) :
  (forall i m, In m (step i) -> i < m -> m <= length s) ->
  forall fuel1 fuel2 i k,
    length s - i <= fuel2 ->
    In k (star_ends step fuel1 i) -> In k (star_ends step fuel2 i).
Proof.
  intros Hbound fuel1.
  induction fuel1 as [|n1 IH]; intros fuel2 i k Hfuel Hk;
    apply star_ends_inv in Hk as [->|(n & m & E & Hm & Him & Hk)];
    try apply star_ends_head; try done.
  injection E as <-. pose proof (Hbound i m Hm Him) as Hle.
  destruct fuel2 as [|n2]; [lia|].
  apply (star_ends_next step n2 i m k Hm Him). apply IH; [lia|done].
Qed.

Lemma ends_sound (r : regex) (i j : nat) :
  In j (ends ic r s i) -> matches ic s r i j.
Proof.
  revert i j. induction r as [|items|r1 IH1 r2 IH2|r1 IH1 r2 IH2|r IH| | |];
    intros i j; simpl.
  - intros [<-|[]]. constructor.
  - destruct (nth_error s i) as [c|] eqn:Hc; [|done].
    destruct (cls_has ic items c) eqn:Hcls; [|done].
    intros [<-|[]]. now apply (M_cls ic s items i c).
  - intros H. apply in_flat_map in H as (m & Hm & Hj).
    apply (M_seq ic s r1 r2 i m j); auto.
  - intros H. apply in_app_or in H as [H|H];
      [apply M_or_l|apply M_or_r]; auto.
  - generalize (length s) as fuel. intros fuel. revert i.
    induction fuel as [|n IHn]; intros i H;
      apply star_ends_inv in H as [->|(n' & m & E & Hm & Him & Hk)];
      try (now constructor); try done.
    injection E as <-. apply (M_star_cons ic s r i m j); auto.
  - destruct (Nat.eqb_spec i 0) as [->|]; [|done]. intros [<-|[]]. constructor.
  - destruct (eol_at s i) eqn:E; [|done]. intros [<-|[]]. now constructor.
  - destruct (boundary_at s i) eqn:E; [|done]. intros [<-|[]]. now constructor.
Qed.

Lemma ends_complete (r : regex) (i j : nat) :
  matches ic s r i j -> In j (ends ic r s i).
Proof.
  induction 1 as [i|items i c Hc Hcls|r1 r2 i j k _ IH1 _ IH2|r1 r2 i j _ IH
                  |r1 r2 i j _ IH|r i|r i j k H1 IH1 _ IH2| |i E|i E]; simpl.
  - now left.
  - rewrite Hc, Hcls. now left.
  - apply in_flat_map. eauto.
  - apply in_or_app. now left.
  - apply in_or_app. now right.
  - apply star_ends_head.
  - simpl in IH2. apply matches_bounds in H1 as [Hij Hj].
    destruct (Nat.eq_dec i j) as [->|Hne]; [done|].
    assert (Hbound : forall a m, In m (ends ic r s a) -> a < m -> m <= length s).
    { intros a m Hm Ham. apply ends_sound, matches_bounds in Hm. lia. }
    destruct (length s) as [|n] eqn:Hlen; [lia|].
    apply (star_ends_next _ n i j k IH1); [lia|].
    rewrite <- Hlen in Hbound.
    apply (star_ends_enough _ Hbound (S n) n j k); [lia|done].
  - now left.
  - rewrite E. now left.
  - rewrite E. now left.
Qed.

(** The matcher computes the meaning of the pattern. *)
Theorem ends_spec (r : regex) (i j : nat) :
  In j (ends ic r s i) <-> matches ic s r i j.
Proof. split; [apply ends_sound|apply ends_complete]. Qed.

End RegexFacts.

(** [re.match] succeeds when the pattern matches a prefix of the text,
    [re.search] when it matches somewhere in it. *)
Theorem re_match_search_spec (r : Re.regex) (text : string) (ic : bool) :
  (Re.re_match r text ic = true
   <-> exists j, Re.matches ic (PyStr.chars text) r 0 j)
  /\ (Re.re_search r text ic = true
      <-> exists i j, i <= String.length text
                      /\ Re.matches ic (PyStr.chars text) r i j).
Proof.
  assert (Hat : forall i, Re.matches_at ic r (PyStr.chars text) i = true
                          <-> exists j, Re.matches ic (PyStr.chars text) r i j).
  { intros i. unfold Re.matches_at.
    destruct (Re.ends ic r (PyStr.chars text) i) as [|j l] eqn:E.
    - split; [done|]. intros [j Hj]. apply ends_complete in Hj.
      rewrite E in Hj. destruct Hj.
    - split; [|done]. intros _. exists j. apply ends_sound. rewrite E. now left. }
  split; [apply Hat|].
  unfold Re.re_search. rewrite existsb_exists. split.
  - intros (i & Hi & Hm). apply in_seq in Hi. apply Hat in Hm as [j Hj].
    exists i, j. split; [lia|done].
  - intros (i & j & Hi & Hj). exists i. split; [apply in_seq; lia|].
    apply Hat. eauto.
Qed.

(** ** The loop of [simple_fusion] *)

Section FusionLoop.
Import Fusion.

(** Ids and scores of the objects when [simple_fusion] is entered. *)
Variable h0 : heap.
Local Abbreviation idf := (id0 h0).
Local Abbreviation scf := (score0 h0).

(** The loop only ever writes [search_type]. *)
Lemma set_search_type_frame (h : heap) (r : ref) (ty : string) (x : ref) :
  id (set_search_type h r ty x) = id (h x)
  /\ score (set_search_type h r ty x) = score (h x)
  /\ payload (set_search_type h r ty x) = payload (h x)
  /\ qdrant_id (set_search_type h r ty x) = qdrant_id (h x)
  /\ boost_factor (set_search_type h r ty x) = boost_factor (h x).
Proof. unfold set_search_type. now destruct (Nat.eqb x r). Qed.

Lemma step_frame (st : state) (r x : ref) :
  id (objs (step st r) x) = id (objs st x)
  /\ score (objs (step st r) x) = score (objs st x)
  /\ payload (objs (step st r) x) = payload (objs st x)
  /\ qdrant_id (objs (step st r) x) = qdrant_id (objs st x)
  /\ boost_factor (objs (step st r) x) = boost_factor (objs st x).
Proof.
  unfold step.
  destruct (seen_ids st !! id (objs st r)) as [e|]; [|done].
  destruct (PyFloat.gt _ _); apply set_search_type_frame.
Qed.

Lemma run_snoc (h : heap) (l : list ref) (r : ref) :
  run h (l ++ [r]) = step (run h l) r.
Proof. unfold run. now rewrite foldl_snoc. Qed.

(** Overwriting the first entry that carries [rid] by an object with the
    same id leaves the ids of the list as they were. *)
Lemma replace_in_list_ids (h : heap) (rid : string) (r : ref) (l : list ref) :
  (forall x, id (h x) = idf x) -> idf r = rid ->
  map idf (replace_in_list h rid r l) = map idf l.
Proof.
  intros Hh Hr. induction l as [|y l IH]; simpl; [done|].
  rewrite Hh. destruct (String.eqb_spec (idf y) rid) as [E|E]; simpl.
  - now rewrite Hr, E.
  - now rewrite IH.
Qed.

Lemma replace_in_list_elem (h : heap) (rid : string) (r : ref) (l : list ref) :
  (forall x, id (h x) = idf x) -> NoDup (map idf l) ->
  forall x, x ∈ replace_in_list h rid r l
            <-> (x ∈ l /\ idf x <> rid) \/ (x = r /\ rid ∈ map idf l).
Proof.
  intros Hh. induction l as [|y l IH]; simpl; intros Hnd x.
  - rewrite !elem_of_nil. tauto.
  - apply NoDup_cons in Hnd as [Hy Hnd]. rewrite Hh.
    destruct (String.eqb_spec (idf y) rid) as [E|E].
    + rewrite !elem_of_cons. split.
      * intros [->|Hx]; [right; split; [done|now left]|].
        left. split; [now right|]. intros E'. apply Hy.
        rewrite E, <- E'. now apply list_elem_of_fmap_2.
      * intros [[[->|Hx] Hne]|[-> _]]; [done|now right|now left].
    + rewrite !elem_of_cons, (IH Hnd). split.
      * intros [->|[[Hx Hne]|[-> Hin]]].
        -- left. split; [now left|done].
        -- left. split; [now right|done].
        -- right. split; [done|now right].
      * intros [[[->|Hx] Hne]|[-> [E'|Hin]]].
        -- now left.
        -- right. now left.
        -- now destruct E.
        -- right. now right.
Qed.

(** When all hits of id [i] in [l] carry the score [s], reading [l]
    amounts to at most one [max]. *)
Lemma best_from_some (l : list ref) (i : string) (s a : PyFloat.float) :
  (forall y, y ∈ l -> idf y = i -> scf y = s) ->
  foldl (best_step h0 i) (Some a) l
  = Some (if has_id h0 i l then PyFloat.max a s else a).
Proof.
  revert a. induction l as [|y l IH]; intros a Hs; simpl; [done|].
  assert (Hl : forall z, z ∈ l -> idf z = i -> scf z = s)
    by (intros z Hz; apply Hs; now right).
  unfold best_step at 2.
  destruct (String.eqb_spec (idf y) i) as [E|E]; simpl.
  - rewrite (Hs y) by (done || now left). rewrite (IH _ Hl).
    destruct (has_id h0 i l); [now rewrite max_absorb|done].
  - now rewrite (IH _ Hl).
Qed.

Lemma best_from_none (l : list ref) (i : string) (s : PyFloat.float) :
  (forall y, y ∈ l -> idf y = i -> scf y = s) ->
  foldl (best_step h0 i) None l = if has_id h0 i l then Some s else None.
Proof.
  induction l as [|y l IH]; intros Hs; simpl; [done|].
  assert (Hl : forall z, z ∈ l -> idf z = i -> scf z = s)
    by (intros z Hz; apply Hs; now right).
  unfold best_step at 2.
  destruct (String.eqb_spec (idf y) i) as [E|E]; simpl.
  - rewrite (Hs y) by (done || now left). rewrite (best_from_some _ _ s _ Hl).
    now rewrite max_idem, Tauto.if_same.
  - now apply IH.
Qed.

Lemma has_id_elem (i : string) (l : list ref) (x : ref) :
  x ∈ l -> idf x = i -> has_id h0 i l = true.
Proof.
  intros Hx Hi. apply existsb_exists. exists x.
  split; [now apply list_elem_of_In|]. now apply String.eqb_eq.
Qed.

Lemma inv_init : inv h0 [] {| objs := h0; seen_ids := ∅; fused_results := [] |}.
Proof.
  split; simpl; try done.
  - constructor.
  - intros i r. rewrite lookup_empty, elem_of_nil. split; [done|tauto].
Qed.

Lemma inv_step (pre : list ref) (st : state) (r : ref) :
  inv h0 pre st -> inv h0 (pre ++ [r]) (step st r).
Proof.
  intros [Hsame Hnd Hseen Hbest Hlen Hsub].
  assert (Hsame' : forall x, id (objs (step st r) x) = idf x
                             /\ score (objs (step st r) x) = scf x).
  { intros x. destruct (step_frame st r x) as (-> & -> & _). apply Hsame. }
  assert (Hb : forall i, best h0 (pre ++ [r]) i = best_step h0 i (best h0 pre i) r).
  { intros i. unfold best. now rewrite foldl_snoc. }
  split; [exact Hsame'| | | | |]; revert Hsame'; unfold step;
    destruct (Hsame r) as [Hid Hsc]; rewrite Hid;
    destruct (seen_ids st !! idf r) as [e|] eqn:Hlook; intros Hsame'.
  (* no duplicate ids *)
  - destruct (Hsame e) as [_ Hsce]. rewrite Hsc, Hsce.
    destruct (PyFloat.gt (scf r) (scf e)); simpl; [|done].
    rewrite replace_in_list_ids; [done| |done].
    intros x. destruct (set_search_type_frame (objs st) r
      (plus_types (search_type (objs st e)) (search_type (objs st r))) x) as [-> _].
    apply Hsame.
  - simpl. rewrite map_app. apply NoDup_app. split; [done|]. split.
    + intros i Hi Hi'. apply list_elem_of_fmap in Hi as (y & -> & Hy).
      simpl in Hi'. apply list_elem_of_singleton in Hi'.
      assert (seen_ids st !! idf r = Some y) by (apply Hseen; done).
      congruence.
    + simpl. apply NoDup_singleton.
  (* the dictionary and the list hold the same hits *)
  - destruct (Hsame e) as [_ Hsce]. rewrite Hsc, Hsce.
    apply Hseen in Hlook as Hlook'. destruct Hlook' as [He Hide].
    destruct (PyFloat.gt (scf r) (scf e)); simpl; [|done].
    intros i x.
    rewrite replace_in_list_elem; [| |done].
    2:{ intros y. destruct (set_search_type_frame (objs st) r
          (plus_types (search_type (objs st e)) (search_type (objs st r))) y) as [-> _].
        apply Hsame. }
    destruct (decide (idf r = i)) as [<-|Hne].
    + rewrite lookup_insert_eq. split.
      * intros [= <-]. split; [|done]. right. split; [done|].
        rewrite <- Hide. now apply list_elem_of_fmap_2.
      * intros [[[_ Hx]|[-> _]] Hi]; [done|done].
    + rewrite lookup_insert_ne by done. rewrite Hseen. split.
      * intros [Hx Hi]. split; [|done]. left. split; [done|congruence].
      * intros [[[Hx _]|[-> _]] Hi]; [done|done].
  - simpl. intros i x. rewrite elem_of_app, list_elem_of_singleton.
    destruct (decide (idf r = i)) as [<-|Hne].
    + rewrite lookup_insert_eq. split.
      * intros [= <-]. split; [now right|done].
      * intros [[Hx| ->] Hi]; [|done].
        assert (seen_ids st !! idf r = Some x) by (apply Hseen; done).
        congruence.
    + rewrite lookup_insert_ne by done. rewrite Hseen. split.
      * intros [Hx Hi]. split; [now left|done].
      * intros [[Hx| ->] Hi]; [done|done].
  (* the stored score is the best one *)
  - destruct (Hsame e) as [_ Hsce]. rewrite Hsc, Hsce.
    intros i. rewrite Hb. unfold best_step. rewrite <- Hbest.
    destruct (String.eqb_spec (idf r) i) as [<-|Hne].
    + rewrite Hlook. simpl. unfold PyFloat.max.
      destruct (PyFloat.gt (scf r) (scf e)); simpl.
      * now rewrite lookup_insert_eq.
      * now rewrite Hlook.
    + destruct (PyFloat.gt (scf r) (scf e)); simpl; [|done].
      now rewrite lookup_insert_ne.
  - simpl. intros i. rewrite Hb. unfold best_step. rewrite <- Hbest.
    destruct (String.eqb_spec (idf r) i) as [<-|Hne].
    + now rewrite Hlook, lookup_insert_eq.
    + now rewrite lookup_insert_ne.
  (* at most one entry per hit read *)
  - destruct (Hsame e) as [_ Hsce]. rewrite Hsc, Hsce.
    rewrite length_app. simpl.
    destruct (PyFloat.gt (scf r) (scf e)); simpl; [|lia].
    assert (E : length (map idf (replace_in_list
                 (set_search_type (objs st) r
                    (plus_types (search_type (objs st e)) (search_type (objs st r))))
                 (idf r) r (fused_results st)))
                = length (map idf (fused_results st))).
    { rewrite replace_in_list_ids; [done| |done].
      intros x. destruct (set_search_type_frame (objs st) r
        (plus_types (search_type (objs st e)) (search_type (objs st r))) x) as [-> _].
      apply Hsame. }
    rewrite !length_map in E. lia.
  - simpl. rewrite !length_app. simpl. lia.
  (* every entry is one of the hits read *)
  - destruct (Hsame e) as [_ Hsce]. rewrite Hsc, Hsce.
    destruct (PyFloat.gt (scf r) (scf e)); simpl.
    + intros x. rewrite replace_in_list_elem; [| |done].
      2:{ intros y. destruct (set_search_type_frame (objs st) r
            (plus_types (search_type (objs st e)) (search_type (objs st r))) y) as [-> _].
          apply Hsame. }
      rewrite elem_of_app, list_elem_of_singleton.
      intros [[Hx _]|[-> _]]; [left; now apply Hsub|now right].
    + intros x Hx. rewrite elem_of_app. left. now apply Hsub.
  - simpl. intros x. rewrite !elem_of_app, list_elem_of_singleton.
    intros [Hx| ->]; [left; now apply Hsub|now right].
Qed.

Lemma inv_run (l : list ref) : inv h0 l (run h0 l).
Proof.
  induction l as [|r l IH] using rev_ind.
  - apply inv_init.
  - rewrite run_snoc. now apply inv_step.
Qed.

End FusionLoop.

(** ** Calls of the searchers *)

Section SearchFacts.
Import Qdrant Search.
Context {Env : Type} (C : Collaborators Env) (collection_name : string).

Local Abbreviation World := (World Env).

(** Creating the result objects never fails; the new objects sit at the
    next free references and nothing else changes. *)
Lemma append_all_spec {P} (make : P -> SearchResult) (points : list P)
      (results : list ref) (w : World) :
  exists w',
    append_all make points results w
    = (Return (results ++ seq (next_ref w) (length points)), w')
    /\ env w' = env w /\ calls w' = calls w
    /\ embedding_cache w' = embedding_cache w
    /\ next_ref w' = next_ref w + length points
    /\ (forall x, x < next_ref w -> objects w' x = objects w x)
    /\ map (objects w') (seq (next_ref w) (length points)) = map make points.
Proof.
  revert results w. induction points as [|p points IH]; intros results w.
  - exists w. simpl. unfold ret. rewrite app_nil_r, Nat.add_0_r. done.
  - simpl. unfold bind, new.
    destruct (IH (results ++ [next_ref w])
                {| env := env w; objects := store (objects w) (next_ref w) (make p);
                   next_ref := S (next_ref w);
                   embedding_cache := embedding_cache w; calls := calls w |})
      as (w' & Hrun & He & Hc & Hk & Hn & Hold & Hnew).
    simpl in *. exists w'. rewrite Hrun, <- app_assoc. simpl.
    repeat split; try done.
    + lia.
    + intros x Hx. rewrite Hold by lia. unfold store.
      destruct (Nat.eqb_spec x (next_ref w)); [lia|done].
    + rewrite Hold by lia. unfold store. rewrite Nat.eqb_refl. now rewrite Hnew.
Qed.

(** The embedding lookup always returns a vector. *)
Lemma embedding_uncached_returns (text : string) (w : World) :
  exists v w', embedding_uncached C text w = (Return v, w').
Proof.
  unfold embedding_uncached, try_except, bind, query_embed, request.
  destruct (model_query_embed C [text] (env w)) as [[[|v vs]|e] e'];
    unfold ret, raise; eauto.
Qed.

Lemma get_embedding_cached_returns (text : string) (w : World) :
  exists v w', _get_embedding_cached C text w = (Return v, w').
Proof.
  unfold _get_embedding_cached.
  destruct (cache_find text (embedding_cache w)); [eauto|].
  destruct (embedding_uncached_returns text w) as (v & w' & ->). eauto.
Qed.

(** Neither searcher lets an exception escape. *)
Lemma exact_field_returns clean count field results (w : World) :
  exists r w', exact_field C collection_name clean count field results w
               = (Return r, w').
Proof.
  destruct field as [[f sc] ty].
  unfold exact_field, try_except, bind, scroll, request.
  destruct (client_scroll C collection_name f clean (Z.min count 10) (env w))
    as [[[pts nxt]|e] e']; [|unfold ret; eauto].
  destruct (append_all_spec (exact_result sc ty) (fst (pts, nxt)) results
              (with_env e' (log (CallScroll collection_name f clean (Z.min count 10)) w)))
    as (w' & -> & _).
  destruct (nonempty _ && _); unfold ret; eauto.
Qed.

Lemma exact_fields_returns clean count fields results (w : World) :
  exists l w', exact_fields C collection_name clean count fields results w
               = (Return l, w').
Proof.
  revert results w. induction fields as [|f fields IH]; intros results w; simpl.
  - unfold ret. eauto.
  - unfold bind.
    destruct (exact_field_returns clean count f results w) as ([[|] l] & w' & ->);
      [unfold ret; eauto|apply IH].
Qed.

Lemma exact_search_async_returns query count (w : World) :
  exists l w', exact_search_async C collection_name query count w = (Return l, w').
Proof. apply exact_fields_returns. Qed.

Lemma vector_search_async_returns query count (w : World) :
  exists l w', vector_search_async C collection_name query count w = (Return l, w').
Proof.
  unfold vector_search_async, try_except, bind.
  destruct (get_embedding_cached_returns query w) as (v & w1 & ->).
  unfold query_points, request.
  destruct (client_query_points C collection_name v count (env w1)) as [[pts|e] e'];
    [|unfold ret; eauto].
  destruct (append_all_spec vector_result (List.filter relevant pts) []
              (with_env e' (log (CallQueryPoints collection_name v count) w1)))
    as (w' & -> & _).
  eauto.
Qed.

(** [parallel_search] returns the first [count] entries of the fusion of
    what the two searchers returned. *)
Lemma parallel_search_spec query count (w : World) :
  exists exact_results vector_results w1 w2,
    exact_search_async C collection_name query count w = (Return exact_results, w1)
    /\ vector_search_async C collection_name query (count * 2) w1
       = (Return vector_results, w2)
    /\ parallel_search C collection_name query count w
       = (Return (slice_to (snd (Fusion.simple_fusion (objects w2)
                                   exact_results vector_results)) count),
          {| env := env w2;
             objects := fst (Fusion.simple_fusion (objects w2)
                               exact_results vector_results);
             next_ref := next_ref w2;
             embedding_cache := embedding_cache w2; calls := calls w2 |}).
Proof.
  destruct (exact_search_async_returns query count w) as (l1 & w1 & H1).
  destruct (vector_search_async_returns query (count * 2) w1) as (l2 & w2 & H2).
  exists l1, l2, w1, w2. repeat split; [done|done|].
  unfold parallel_search, bind. rewrite H1, H2.
  unfold simple_fusion.
  now destruct (Fusion.simple_fusion (objects w2) l1 l2).
Qed.

End SearchFacts.

(** * Claims about the simple fusion *)

Section FusionClaims.
Import Qdrant Search Fusion.

Lemma NoDup_map_prefix {A B} (f : A -> B) (l k : list A) :
  l `prefix_of` k -> NoDup (map f k) -> NoDup (map f l).
Proof.
  intros [t ->]. rewrite map_app. intros H. now apply NoDup_app in H as [H _].
Qed.

Lemma simple_fusion_ids (h : heap) (exact_results vector_results : list ref) :
  let '(h', fused) := Fusion.simple_fusion h exact_results vector_results in
  NoDup (map (fun r => id (h' r)) fused)
  /\ length fused <= length exact_results + length vector_results.
Proof.
  unfold Fusion.simple_fusion.
  destruct (inv_run h (exact_results ++ vector_results))
    as [Hsame Hnd _ _ Hlen _].
  set (st := Fusion.run h (exact_results ++ vector_results)) in *.
  split.
  - rewrite (Permutation_map _ (sort_desc_perm _ _)).
    erewrite map_ext; [exact Hnd|]. intros r. apply Hsame.
  - rewrite (Permutation_length (sort_desc_perm _ _)).
    now rewrite length_app in Hlen.
Qed.

(** C1: the output of [simple_fusion] holds every hit id at most once and
    is no longer than the two input lists together; the list that
    [parallel_search] hands to its caller for a requested count
    [count >= 0] has at most [count] entries (and no repeated id). *)
Theorem simple_fusion_dedup {Env : Type} (C : Collaborators Env)
        (collection_name : string) (h : heap)
        (exact_results vector_results : list ref)
        (query : string) (count : Z) (w : World Env) :
  (0 <= count)%Z ->
  (let '(h', fused) := Fusion.simple_fusion h exact_results vector_results in
   NoDup (map (fun r => id (h' r)) fused)
   /\ length fused <= length exact_results + length vector_results)
  /\ exists returned w',
      parallel_search C collection_name query count w = (Return returned, w')
      /\ (Z.of_nat (length returned) <= count)%Z
      /\ NoDup (map (fun r => id (objects w' r)) returned).
Proof.
  intros Hcount. split; [apply simple_fusion_ids|].
  destruct (parallel_search_spec C collection_name query count w)
    as (l1 & l2 & w1 & w2 & _ & _ & ->).
  pose proof (simple_fusion_ids (objects w2) l1 l2) as H.
  destruct (Fusion.simple_fusion (objects w2) l1 l2) as [h' fused].
  eexists _, _. split; [reflexivity|]. cbn [fst snd objects]. split.
  - now apply slice_to_length.
  - eapply NoDup_map_prefix; [apply slice_to_sublist|apply H].
Qed.

(** C2: when an id occurs in both input lists, with one score among the
    exact hits and one score among the vector hits, the fused output holds
    exactly one hit of that id and its score is
    [max(exact score, vector score)], which bounds both. *)
Theorem simple_fusion_max_score (h : heap)
        (exact_results vector_results : list ref) (e v : ref) :
  In e exact_results -> In v vector_results ->
  id (h v) = id (h e) ->
  (forall x, In x exact_results -> id (h x) = id (h e) -> score (h x) = score (h e)) ->
  (forall x, In x vector_results -> id (h x) = id (h e) -> score (h x) = score (h v)) ->
  let '(h', fused) := Fusion.simple_fusion h exact_results vector_results in
  exists r,
    In r fused /\ id (h' r) = id (h e)
    /\ (forall r', In r' fused -> id (h' r') = id (h e) -> r' = r)
    /\ score (h' r) = PyFloat.max (score (h e)) (score (h v))
    /\ (score (h e) <= score (h' r))%Q /\ (score (h v) <= score (h' r))%Q.
Proof.
  intros He Hv Hid Hes Hvs. unfold Fusion.simple_fusion.
  destruct (inv_run h (exact_results ++ vector_results))
    as [Hsame _ Hseen Hbest _ _].
  set (st := Fusion.run h (exact_results ++ vector_results)) in *.
  set (i := id (h e)) in *.
  assert (Hb : best h (exact_results ++ vector_results) i
               = Some (PyFloat.max (score (h e)) (score (h v)))).
  { unfold best. rewrite foldl_app.
    rewrite (best_from_none h exact_results i (score (h e)))
      by (intros y Hy; apply Hes; now apply list_elem_of_In).
    rewrite (has_id_elem h i exact_results e) by (done || now apply list_elem_of_In).
    rewrite (best_from_some h vector_results i (score (h v)))
      by (intros y Hy; apply Hvs; now apply list_elem_of_In).
    now rewrite (has_id_elem h i vector_results v) by (done || now apply list_elem_of_In). }
  rewrite <- Hbest in Hb.
  destruct (seen_ids st !! i) as [r|] eqn:Hr; [|done].
  injection Hb as Hb. apply Hseen in Hr as Hr'. destruct Hr' as [Hin Hri].
  exists r. destruct (Hsame r) as [Hidr Hscr].
  assert (Hmem : forall y, In y (sort_desc (fun x => score (objs st x))
                                   (fused_results st))
                           <-> y ∈ fused_results st).
  { intros y. rewrite <- list_elem_of_In. now rewrite sort_desc_perm. }
  split; [now apply Hmem|]. split; [congruence|]. split.
  - intros r' Hr' Hi'. apply Hmem in Hr'.
    assert (seen_ids st !! i = Some r') as E.
    { apply Hseen. split; [done|]. destruct (Hsame r') as [<- _]. done. }
    congruence.
  - rewrite Hscr, Hb. split; [done|]. split; [apply max_ge_l|apply max_ge_r].
Qed.

(** C3: when the hit read has the id of a stored hit and a score that is
    not strictly greater, the stored hit's [search_type] becomes
    "{stored}+{new}"; its id, score and payload, the dictionary, the list
    and every other object stay as they were. *)
Theorem duplicate_not_greater_relabels (st : Fusion.state) (result existing : ref) :
  seen_ids st !! id (objs st result) = Some existing ->
  (score (objs st result) <= score (objs st existing))%Q ->
  let st' := Fusion.step st result in
  search_type (objs st' existing)
  = String.append (search_type (objs st existing))
      (String.append "+" (search_type (objs st result)))
  /\ score (objs st' existing) = score (objs st existing)
  /\ payload (objs st' existing) = payload (objs st existing)
  /\ id (objs st' existing) = id (objs st existing)
  /\ seen_ids st' = seen_ids st
  /\ fused_results st' = fused_results st
  /\ forall x, x <> existing -> objs st' x = objs st x.
Proof.
  intros Hseen Hle. unfold Fusion.step. rewrite Hseen.
  assert (PyFloat.gt (score (objs st result)) (score (objs st existing)) = false) as ->.
  { apply not_true_is_false. intros H. apply lt_spec in H.
    now apply Qlt_not_le in H. }
  simpl. unfold set_search_type. rewrite Nat.eqb_refl. simpl.
  repeat split; try done.
  intros x Hx. now destruct (Nat.eqb_spec x existing).
Qed.

End FusionClaims.

(** * Claims about the searchers and the orchestrator *)

Section SearchClaims.
Import Qdrant Search.
Context {Env : Type} (C : Collaborators Env) (collection_name : string).

Local Abbreviation World := (World Env).

(** One round of the loop over the fields: one [scroll] request, and what
    the round leaves in [results]. *)
Lemma exact_field_spec clean count f sc ty results (w : World) :
  exists w',
    calls w' = calls w ++ [CallScroll collection_name f clean (Z.min count 10)]
    /\ exact_field C collection_name clean count (f, sc, ty) results w
       = (Return
            match fst (client_scroll C collection_name f clean (Z.min count 10) (env w)) with
            | Return (points, _) =>
                let results' := results ++ seq (next_ref w) (length points) in
                (if nonempty results' && String.eqb ty "exact" then Break else Continue,
                 results')
            | Raise _ => (Continue, results)
            end, w').
Proof.
  unfold exact_field, try_except, bind, scroll, request.
  destruct (client_scroll C collection_name f clean (Z.min count 10) (env w))
    as [[[pts nxt]|e] e']; cbn [fst].
  - destruct (append_all_spec (exact_result sc ty) pts results
                (with_env e' (log (CallScroll collection_name f clean (Z.min count 10)) w)))
      as (w' & -> & _ & Hc & _).
    exists w'. split; [exact Hc|]. cbn [next_ref with_env log].
    now destruct (nonempty _ && _).
  - eexists. split; [|reflexivity]. reflexivity.
Qed.

(** C6: [exact_search_async] asks for the primary field first; when that
    lookup yields at least one hit no request is made for the
    manufacturer field, and when it yields none (or fails) the
    manufacturer field is queried next. *)
Theorem exact_search_short_circuit (query : string) (count : Z) (w : World) :
  let clean_query := PyStr.upper (PyStr.strip query) in
  let limit := Z.min count 10 in
  let primary :=
    CallScroll collection_name "partNumber_airgas_text" clean_query limit in
  let secondary :=
    CallScroll collection_name "manufacturerPartNumber_text" clean_query limit in
  calls (snd (exact_search_async C collection_name query count w))
  = calls w ++
      match fst (client_scroll C collection_name "partNumber_airgas_text"
                   clean_query limit (env w)) with
      | Return (_ :: _, _) => [primary]
      | _ => [primary; secondary]
      end.
Proof.
  intros clean_query limit primary secondary.
  unfold exact_search_async, search_fields. fold clean_query.
  cbn [exact_fields]. unfold bind at 1.
  destruct (exact_field_spec clean_query count "partNumber_airgas_text"
              PyFloat.f_1_0 "exact" [] w) as (w1 & Hc1 & ->).
  fold limit in Hc1 |- *. fold primary in Hc1.
  assert (Hsecond : forall results,
             calls (snd (bind (exact_field C collection_name clean_query count
                                 ("manufacturerPartNumber_text", PyFloat.f_0_9, "exact_mfg")
                                 results)
                              (fun r => match r with
                                        | (Break, results) => ret results
                                        | (Continue, results) => ret results
                                        end) w1))
             = calls w ++ [primary; secondary]).
  { intros results. unfold bind.
    destruct (exact_field_spec clean_query count "manufacturerPartNumber_text"
                PyFloat.f_0_9 "exact_mfg" results w1) as (w2 & Hc2 & ->).
    fold limit secondary in Hc2.
    rewrite Hc1, <- app_assoc in Hc2. simpl in Hc2.
    destruct (fst _) as [[pts nxt]|e]; cbn zeta;
      [destruct (nonempty _ && _)|]; exact Hc2. }
  destruct (fst (client_scroll C collection_name "partNumber_airgas_text"
                   clean_query limit (env w))) as [[[|p pts] nxt]|e].
  - cbn [length seq app nonempty andb]. apply Hsecond.
  - cbn [length seq app nonempty andb String.eqb]. exact Hc1.
  - apply Hsecond.
Qed.



(** C4, as the code has it: when the embedding model fails on a text that
    is not cached, [_get_embedding_cached] returns a vector of 384 zeros
    and caches it; the vector search goes on to query the index with that
    vector, and no exception reaches its caller. *)
Theorem embedding_failure_falls_back (text : string) (count : Z) (w : World)
        (failure : exn) (e : Env) :
  cache_find text (embedding_cache w) = None ->
  model_query_embed C [text] (env w) = (Raise failure, e) ->
  (exists w1,
      _get_embedding_cached C text w = (Return (repeat PyFloat.f_0_0 384), w1)
      /\ cache_find text (embedding_cache w1) = Some (repeat PyFloat.f_0_0 384))
  /\ exists returned w',
      vector_search_async C collection_name text count w = (Return returned, w')
      /\ In (CallQueryPoints collection_name (repeat PyFloat.f_0_0 384) count)
            (calls w').
Proof.
  intros Hmiss Hfail.
  assert (Hget : exists w1,
             _get_embedding_cached C text w = (Return (repeat PyFloat.f_0_0 384), w1)
             /\ cache_find text (embedding_cache w1) = Some (repeat PyFloat.f_0_0 384)
             /\ calls w1 = calls w ++ [CallQueryEmbed [text]]).
  { unfold _get_embedding_cached. rewrite Hmiss.
    unfold embedding_uncached, try_except, bind, query_embed, request.
    rewrite Hfail. unfold ret. eexists. split; [reflexivity|].
    cbn [embedding_cache with_cache calls with_env log]. split; [|reflexivity].
    unfold maxsize. cbn [take]. unfold cache_find. cbn [find fst].
    now rewrite String.eqb_refl. }
  destruct Hget as (w1 & Hget & Hcache & Hcalls).
  split; [eauto|].
  unfold vector_search_async, try_except, bind. rewrite Hget.
  unfold query_points, request.
  destruct (client_query_points C collection_name (repeat PyFloat.f_0_0 384) count (env w1))
    as [[pts|x] e'].
  - destruct (append_all_spec vector_result (List.filter relevant pts) []
                (with_env e' (log (CallQueryPoints collection_name
                                     (repeat PyFloat.f_0_0 384) count) w1)))
      as (w' & -> & _ & Hc & _).
    eexists _, w'. split; [reflexivity|]. rewrite Hc.
    cbn [calls with_env log]. apply in_or_app. right. now left.
  - eexists _, _. split; [reflexivity|].
    cbn [calls with_env log]. apply in_or_app. right. now left.
Qed.

(** C8, as the code has it: [parallel_search] has no deadline and never
    raises; a timeout raised by the store client is caught inside the
    sub-search it interrupts, so when every store request times out the
    orchestrator returns the empty list, as for a query without hits. *)
Theorem timeouts_yield_empty_result (query : string) (count : Z) (w : World) :
  (forall field value limit e, exists msg e',
      client_scroll C collection_name field value limit e
      = (Raise (TimeoutError msg), e')) ->
  (forall vector limit e, exists msg e',
      client_query_points C collection_name vector limit e
      = (Raise (TimeoutError msg), e')) ->
  exists w', parallel_search C collection_name query count w = (Return [], w').
Proof.
  intros Hscroll Hquery.
  destruct (parallel_search_spec C collection_name query count w)
    as (l1 & l2 & w1 & w2 & H1 & H2 & ->).
  assert (l1 = []) as ->.
  { revert H1. unfold exact_search_async, search_fields. cbn [exact_fields].
    unfold bind at 1.
    destruct (exact_field_spec (PyStr.upper (PyStr.strip query)) count
                "partNumber_airgas_text" PyFloat.f_1_0 "exact" [] w) as (wa & _ & ->).
    destruct (Hscroll "partNumber_airgas_text" (PyStr.upper (PyStr.strip query))
                (Z.min count 10) (env w)) as (m & e' & ->).
    cbn [fst]. unfold bind.
    destruct (exact_field_spec (PyStr.upper (PyStr.strip query)) count
                "manufacturerPartNumber_text" PyFloat.f_0_9 "exact_mfg" [] wa)
      as (wb & _ & ->).
    destruct (Hscroll "manufacturerPartNumber_text" (PyStr.upper (PyStr.strip query))
                (Z.min count 10) (env wa)) as (m' & e'' & ->).
    cbn [fst]. unfold ret. congruence. }
  assert (l2 = []) as ->.
  { revert H2. unfold vector_search_async, try_except, bind.
    destruct (get_embedding_cached_returns C query w1) as (v & wv & ->).
    unfold query_points, request.
    destruct (Hquery v (count * 2)%Z (env wv)) as (m & e' & ->).
    unfold ret. congruence. }
  eexists. f_equal. unfold slice_to.
  change (snd (Fusion.simple_fusion (objects w2) [] [])) with (@nil ref).
  destruct (0 <=? count)%Z; now rewrite take_nil.
Qed.

End SearchClaims.

(** * Reciprocal rank fusion *)

Section RRFFacts.
Import Qdrant RRF.
Local Open Scope Q_scope.

Lemma PointId_eqb_spec (a b : PointId) : reflect (a = b) (PointId_eqb a b).
Proof.
  destruct a as [n|u], b as [m|v]; simpl; try (constructor; congruence).
  - destruct (Z.eqb_spec n m); constructor; congruence.
  - destruct (String.eqb_spec u v); constructor; congruence.
Qed.





















End RRFFacts.

Section RRFClaims.
Import Qdrant RRF.
Local Open Scope Q_scope.




End RRFClaims.

(** ** The classifier *)

Section Classifier.
Import PyStr Re PartNumberClassifier.

Lemma fst_when_fire c delta msg (t : tally) :
  fst (when c (fire delta msg) t) = when c (add delta) (fst t).
Proof. now destruct c. Qed.

Lemma fst_if_else_fire c1 c2 d1 m1 d2 m2 (t : tally) :
  fst (if_else c1 (fire d1 m1) (when c2 (fire d2 m2)) t)
  = if_else c1 (add d1) (when c2 (add d2)) (fst t).
Proof. now destruct c1, c2. Qed.

(** C10: the boolean classifier and the [is_part_number] entry of the
    dictionary built by [explain_classification] agree on every query:
    the two copies of the rules reach the same decision. *)
Theorem explain_agrees_with_is_part_number (query : string) :
  getitem (explain_classification query) "is_part_number"
  = Some (VBool (is_part_number query)).
Proof.
  unfold explain_classification, is_part_number.
  (* both code paths test the same five early-rejection conditions *)
  do 5 lazymatch goal with
       | |- getitem (if ?c then _ else _) _ = Some (VBool (if ?c then _ else _)) =>
           destruct c; [reflexivity |]
       end.
  cbn [getitem String.eqb Ascii.eqb Bool.eqb].
  repeat (rewrite fst_when_fire || rewrite fst_if_else_fire).
  reflexivity.
Qed.

(** C9: the four boundary cases of the classifier: the empty string and
    "abc" are rejected, "RAD64002019" is accepted, and the question about
    the best torch is rejected. *)
Theorem classifier_boundary_cases :
  is_part_number "" = false
  /\ is_part_number "abc" = false
  /\ is_part_number "RAD64002019" = true
  /\ is_part_number "how much is the best torch" = false.
Proof. repeat split; vm_compute; reflexivity. Qed.

End Classifier.

(** * Further properties *)

Section FurtherProperties.
Import Qdrant Search.
Local Open Scope Q_scope.

Lemma insert_desc_sorted {A : Type} (key : A -> PyFloat.float) (x : A) (l : list A) :
  StronglySorted (fun a b => key b <= key a) l ->
  StronglySorted (fun a b => key b <= key a) (insert_desc key x l).
Proof.
  induction 1 as [|y l Hl IH Hy]; simpl; [repeat constructor|].
  destruct (PyFloat.lt (key x) (key y)) eqn:E.
  - constructor; [done|]. rewrite insert_desc_perm. constructor; [|done].
    apply Qlt_le_weak. now apply lt_spec.
  - assert (Hyx : key y <= key x).
    { apply Qnot_lt_le. intros H. apply lt_spec in H. congruence. }
    constructor; [now constructor|]. constructor; [done|].
    eapply Forall_impl; [exact Hy|]. intros z Hz. simpl in Hz.
    now apply (Qle_trans _ (key y)).
Qed.

Lemma sort_desc_sorted {A : Type} (key : A -> PyFloat.float) (l : list A) :
  StronglySorted (fun a b => key b <= key a) (sort_desc key l).
Proof.
  induction l as [|x l IH]; simpl; [constructor|]. now apply insert_desc_sorted.
Qed.

(** The list [simple_fusion] returns is in descending order of score. *)
Theorem simple_fusion_sorted (h : heap) (exact_results vector_results : list ref) :
  let '(h', fused) := Fusion.simple_fusion h exact_results vector_results in
  StronglySorted (fun a b => score (h' b) <= score (h' a)) fused.
Proof. apply (sort_desc_sorted (fun x => score (_ x))). Qed.




(** A query without exact match: the three hits of the index come back in
    descending order of score, each tagged "vector". *)
Theorem scenario_vector_only :
  Demo.summary (parallel_search Demo.torch_index "products_fast" "gas torch" 10 Demo.w0)
  = Return [("T-1", 65 # 100, "vector"); ("T-2", 55 # 100, "vector");
            ("T-3", 42 # 100, "vector")].
Proof. vm_compute. reflexivity. Qed.

(** A part number filed in the store and found by the index as well: its
    hit comes first with the exact score 1.0 and the tag "exact+vector";
    the manufacturer field is never asked; the other two hits follow,
    tagged "vector". *)
Theorem scenario_exact_and_vector :
  Demo.summary (parallel_search Demo.part_index "products_fast" "HYP220479" 10 Demo.w0)
  = Return [("HYP220479", 1, "exact+vector"); ("P-1", 8 # 10, "vector");
            ("P-2", 6 # 10, "vector")]
  /\ calls (snd (parallel_search Demo.part_index "products_fast" "HYP220479" 10 Demo.w0))
     = [CallScroll "products_fast" "partNumber_airgas_text" "HYP220479" 10;
        CallQueryEmbed ["HYP220479"];
        CallQueryPoints "products_fast" [1 # 2; 1 # 4] 20].
Proof. split; vm_compute; reflexivity. Qed.

End FurtherProperties.

(** * Instances

    The theorems above applied to the example worlds, and the runs that
    show where the code departs from a claim. *)

Section Instances.
Import Qdrant Search Demo.

(** C1 on the example store: the fusion of the four objects, and a search
    for the filed part number with ten results requested. *)
Lemma simple_fusion_dedup_example :
  (let '(h', fused) := Fusion.simple_fusion objects0 [0] [1; 2; 3] in
   NoDup (map (fun r => id (h' r)) fused) /\ length fused <= 1 + 3)
  /\ exists returned w',
      parallel_search catalog "products_fast" "HYP220479" 10 w0 = (Return returned, w')
      /\ (Z.of_nat (length returned) <= 10)%Z
      /\ NoDup (map (fun r => id (objects w' r)) returned).
Proof.
  apply (simple_fusion_dedup catalog "products_fast" objects0 [0] [1; 2; 3]
           "HYP220479" 10 w0).
  lia.
Defined.

(** C2 on the example objects: the product found by both searches keeps
    the score 1.0 of its exact hit. *)
Lemma simple_fusion_max_score_example :
  let '(h', fused) := Fusion.simple_fusion objects0 [0] [1; 2; 3] in
  exists r,
    In r fused /\ id (h' r) = "HYP220479"
    /\ (forall r', In r' fused -> id (h' r') = "HYP220479" -> r' = r)
    /\ score (h' r) = PyFloat.max 1 (3 # 4)
    /\ (1 <= score (h' r))%Q /\ (3 # 4 <= score (h' r))%Q.
Proof.
  apply (simple_fusion_max_score objects0 [0] [1; 2; 3] 0 1).
  - simpl. tauto.
  - simpl. tauto.
  - reflexivity.
  - intros x [<-|[]] _. reflexivity.
  - intros x [<-|[<-|[<-|[]]]]; simpl; intros H; (reflexivity || discriminate H).
Defined.

(** C3 on the example objects: the vector hit for the product arrives
    after its exact hit, with the smaller score. *)
Lemma duplicate_not_greater_relabels_example :
  let st := Fusion.run objects0 [0] in
  let st' := Fusion.step st 1 in
  search_type (Fusion.objs st' 0) = "exact+vector"
  /\ score (Fusion.objs st' 0) = score (Fusion.objs st 0)
  /\ payload (Fusion.objs st' 0) = payload (Fusion.objs st 0)
  /\ id (Fusion.objs st' 0) = id (Fusion.objs st 0)
  /\ Fusion.seen_ids st' = Fusion.seen_ids st
  /\ Fusion.fused_results st' = Fusion.fused_results st
  /\ forall x, x <> 0 -> Fusion.objs st' x = Fusion.objs st x.
Proof.
  apply (duplicate_not_greater_relabels (Fusion.run objects0 [0]) 1 0).
  - reflexivity.
  - vm_compute. discriminate.
Defined.



(** C4 fails on the code: the model raises [EmbeddingError], and the
    lookup returns 384 zeros, the vector search returns the hits found
    for that vector, and the fusion search returns its results. *)
Lemma embedding_error_not_propagated :
  model_query_embed broken_model ["gas torch"] tt
  = (Raise (EmbeddingError "model failure"), tt)
  /\ fst (_get_embedding_cached broken_model "gas torch" w0)
     = Return (repeat PyFloat.f_0_0 384)
  /\ fst (vector_search_async broken_model "products_fast" "gas torch" 20 w0)
     = Return [4; 5; 6]
  /\ fst (parallel_search broken_model "products_fast" "gas torch" 10 w0)
     = Return [4; 5; 6]
  /\ calls (snd (parallel_search broken_model "products_fast" "gas torch" 10 w0))
     = [CallScroll "products_fast" "partNumber_airgas_text" "GAS TORCH" 10;
        CallScroll "products_fast" "manufacturerPartNumber_text" "GAS TORCH" 10;
        CallQueryEmbed ["gas torch"];
        CallQueryPoints "products_fast" (repeat PyFloat.f_0_0 384) 20].
Proof. repeat split; vm_compute; reflexivity. Qed.

(** The amended C4 on the failing model. *)
Lemma embedding_failure_falls_back_example :
  (exists w1,
      _get_embedding_cached broken_model "gas torch" w0
      = (Return (repeat PyFloat.f_0_0 384), w1)
      /\ cache_find "gas torch" (embedding_cache w1) = Some (repeat PyFloat.f_0_0 384))
  /\ exists returned w',
      vector_search_async broken_model "products_fast" "gas torch" 20 w0
      = (Return returned, w')
      /\ In (CallQueryPoints "products_fast" (repeat PyFloat.f_0_0 384) 20) (calls w').
Proof.
  apply (embedding_failure_falls_back broken_model "products_fast" "gas torch" 20 w0
           (EmbeddingError "model failure") tt).
  - reflexivity.
  - reflexivity.
Defined.

(** C8 fails on the code: every request to the store times out, and the
    search returns the empty list, exactly as on a store without hits. *)
Lemma timeout_returned_as_empty_list :
  client_scroll timed_out "products_fast" "partNumber_airgas_text" "GAS TORCH" 10 tt
  = (Raise (TimeoutError "timed out"), tt)
  /\ client_scroll timed_out "products_fast" "manufacturerPartNumber_text" "GAS TORCH" 10 tt
     = (Raise (TimeoutError "timed out"), tt)
  /\ client_query_points timed_out "products_fast" [1 # 2; 1 # 4]%Q 20 tt
     = (Raise (TimeoutError "timed out"), tt)
  /\ fst (parallel_search timed_out "products_fast" "gas torch" 10 w0) = Return []
  /\ fst (parallel_search empty_store "products_fast" "gas torch" 10 w0) = Return [].
Proof. repeat split; vm_compute; reflexivity. Qed.

(** The amended C8 on the store that times out. *)
Lemma timeouts_yield_empty_result_example :
  exists w', parallel_search timed_out "products_fast" "gas torch" 10 w0 = (Return [], w').
Proof.
  apply (timeouts_yield_empty_result timed_out "products_fast" "gas torch" 10 w0).
  - intros field value limit e. exists "timed out", e. reflexivity.
  - intros vector limit e. exists "timed out", e. reflexivity.
Defined.

End Instances.

(** * More on the simple fusion *)

Section FusionMore.
Import Fusion.

(** The loop writes [search_type] and nothing else, over the whole run. *)
Lemma run_frame (h : heap) (l : list ref) (x : ref) :
  id (objs (run h l) x) = id (h x)
  /\ score (objs (run h l) x) = score (h x)
  /\ payload (objs (run h l) x) = payload (h x)
  /\ qdrant_id (objs (run h l) x) = qdrant_id (h x)
  /\ boost_factor (objs (run h l) x) = boost_factor (h x).
Proof.
  induction l as [|r l IH] using rev_ind; [done|].
  rewrite run_snoc.
  destruct (step_frame (run h l) r x) as (-> & -> & -> & -> & ->). exact IH.
Qed.

Lemma best_step_some (h : heap) (i : string) (l : list ref) (a : PyFloat.float) :
  is_Some (foldl (best_step h i) (Some a) l).
Proof.
  revert a. induction l as [|y l IH]; intros a; simpl; [eauto|].
  unfold best_step at 2. destruct (String.eqb _ _); apply IH.
Qed.

Lemma best_is_Some (h : heap) (l : list ref) (x : ref) :
  x ∈ l -> is_Some (best h l (id (h x))).
Proof.
  unfold best. generalize (@None PyFloat.float) as acc.
  induction l as [|y l IH]; intros acc Hx; [now apply elem_of_nil in Hx|].
  simpl. apply elem_of_cons in Hx as [<-|Hx]; [|now apply IH].
  unfold best_step at 2. unfold id0. rewrite String.eqb_refl. apply best_step_some.
Qed.

Lemma sorted_elem (h : heap) (l : list ref) (r : ref) :
  In r (sort_desc (fun x => score (h x)) l) <-> r ∈ l.
Proof. rewrite <- list_elem_of_In. now rewrite sort_desc_perm. Qed.

(** [simple_fusion] returns objects of its input only, leaves every
    attribute but [search_type] as it was, and loses no id: every id of the
    input is the id of a returned hit. *)
Theorem simple_fusion_keeps_ids (h : heap) (exact_results vector_results : list ref) :
  let '(h', fused) := simple_fusion h exact_results vector_results in
  (forall x, id (h' x) = id (h x) /\ score (h' x) = score (h x)
             /\ payload (h' x) = payload (h x)
             /\ qdrant_id (h' x) = qdrant_id (h x)
             /\ boost_factor (h' x) = boost_factor (h x))
  /\ (forall r, In r fused -> In r (exact_results ++ vector_results))
  /\ (forall x, In x (exact_results ++ vector_results) ->
        exists r, In r fused /\ id (h r) = id (h x)).
Proof.
  unfold simple_fusion.
  destruct (inv_run h (exact_results ++ vector_results))
    as [Hsame _ Hseen Hbest _ Hsub].
  set (st := run h (exact_results ++ vector_results)) in *.
  split; [intros x; apply run_frame|]. split.
  - intros r Hr. apply sorted_elem in Hr. apply list_elem_of_In. now apply Hsub.
  - intros x Hx. apply list_elem_of_In in Hx.
    destruct (best_is_Some h _ x Hx) as [s Hs].
    rewrite <- Hbest in Hs.
    destruct (seen_ids st !! id (h x)) as [r|] eqn:Hr; [|done].
    apply Hseen in Hr as [Hin Hid]. exists r.
    split; [now apply sorted_elem|exact Hid].
Qed.

(** A hit of another id leaves the entry of id [i] in the dictionary, and
    the objects of id [i], alone. *)
Lemma step_other_id (h0 : heap) (pre : list ref) (st : state) (r : ref) (i : string) :
  inv h0 pre st -> id (h0 r) <> i ->
  seen_ids (step st r) !! i = seen_ids st !! i
  /\ forall x, id (h0 x) = i -> objs (step st r) x = objs st x.
Proof.
  intros [Hsame _ Hseen _ _ _] Hne. unfold step.
  destruct (Hsame r) as [Hid _]. rewrite Hid. unfold id0.
  destruct (seen_ids st !! id (h0 r)) as [e|] eqn:Hlook.
  - apply Hseen in Hlook as [_ He]. unfold id0 in He.
    destruct (PyFloat.gt _ _); simpl.
    + split; [now rewrite lookup_insert_ne|].
      intros x Hx. unfold set_search_type.
      destruct (Nat.eqb_spec x r) as [->|]; [congruence|done].
    + split; [done|]. intros x Hx. unfold set_search_type.
      destruct (Nat.eqb_spec x e) as [->|]; [congruence|done].
  - simpl. split; [now rewrite lookup_insert_ne|done].
Qed.

Lemma run_skip (h : heap) (pre l : list ref) (i : string) :
  (forall x, x ∈ l -> id (h x) <> i) ->
  seen_ids (run h (pre ++ l)) !! i = seen_ids (run h pre) !! i
  /\ forall x, id (h x) = i -> objs (run h (pre ++ l)) x = objs (run h pre) x.
Proof.
  induction l as [|r l IH] using rev_ind; intros Hl.
  - now rewrite app_nil_r.
  - rewrite app_assoc, run_snoc.
    destruct IH as [IH1 IH2]; [intros x Hx; apply Hl, elem_of_app; now left|].
    destruct (step_other_id h (pre ++ l) (run h (pre ++ l)) r i (inv_run h _))
      as [H1 H2]; [apply Hl, elem_of_app; right; now left|].
    split; [now rewrite H1|]. intros x Hx. rewrite (H2 x Hx). now apply IH2.
Qed.

Lemma filter_nil_not {A} (p : A -> bool) (l : list A) :
  List.filter p l = [] -> forall x, x ∈ l -> p x = false.
Proof.
  induction l as [|y l IH]; simpl; intros H x Hx; [now apply elem_of_nil in Hx|].
  destruct (p y) eqn:E; [done|].
  apply elem_of_cons in Hx as [->|Hx]; [done|now apply IH].
Qed.

Lemma filter_singleton_split {A} (p : A -> bool) (l : list A) (e : A) :
  List.filter p l = [e] ->
  exists l1 l2, l = l1 ++ e :: l2 /\ p e = true
                /\ List.filter p l1 = [] /\ List.filter p l2 = [].
Proof.
  induction l as [|y l IH]; simpl; [done|].
  destruct (p y) eqn:E.
  - intros [= -> Hl]. exists [], l. simpl. done.
  - intros H. destruct (IH H) as (l1 & l2 & -> & He & H1 & H2).
    exists (y :: l1), l2. simpl. now rewrite E.
Qed.

Lemma filter_app_nil {A} (p : A -> bool) (l1 l2 : list A) :
  List.filter p l1 = [] -> List.filter p l2 = [] -> List.filter p (l1 ++ l2) = [].
Proof. intros H1 H2. now rewrite List.filter_app, H1, H2. Qed.

Lemma no_id_in (h : heap) (i : string) (l : list ref) :
  List.filter (fun x => String.eqb (id (h x)) i) l = [] ->
  forall x, x ∈ l -> id (h x) <> i.
Proof.
  intros H x Hx E. apply (filter_nil_not _ _ H) in Hx.
  apply String.eqb_neq in Hx. done.
Qed.

(** The state of the loop for an id that occurs once in the input: its one
    hit is stored untouched. *)
Lemma run_single (h : heap) (l1 l2 : list ref) (x : ref) :
  List.filter (fun y => String.eqb (id (h y)) (id (h x))) l1 = [] ->
  List.filter (fun y => String.eqb (id (h y)) (id (h x))) l2 = [] ->
  seen_ids (run h (l1 ++ x :: l2)) !! id (h x) = Some x
  /\ forall y, id (h y) = id (h x) -> objs (run h (l1 ++ x :: l2)) y = h y.
Proof.
  intros H1 H2.
  destruct (run_skip h [] l1 (id (h x)) (no_id_in h _ _ H1)) as [Ha Hb].
  simpl in Ha, Hb. change (seen_ids (run h [])) with (∅ : gmap string ref) in Ha.
  rewrite lookup_empty in Ha.
  assert (Hstep : seen_ids (run h (l1 ++ [x])) !! id (h x) = Some x
                  /\ forall y, id (h y) = id (h x) -> objs (run h (l1 ++ [x])) y = h y).
  { rewrite run_snoc. unfold step.
    destruct (inv_run h l1) as [Hsame _ _ _ _ _].
    destruct (Hsame x) as [-> _]. unfold id0. rewrite Ha. simpl.
    split; [now rewrite lookup_insert_eq|]. intros y Hy. now apply Hb. }
  destruct Hstep as [Hc Hd].
  replace (l1 ++ x :: l2) with ((l1 ++ [x]) ++ l2) by now rewrite <- app_assoc.
  destruct (run_skip h (l1 ++ [x]) l2 (id (h x)) (no_id_in h _ _ H2)) as [He Hf].
  split; [now rewrite He|]. intros y Hy. rewrite (Hf y Hy). now apply Hd.
Qed.

(** A hit whose id no other hit of the input carries is returned as it came:
    not even its [search_type] is touched. *)
Theorem single_source_hit_untouched (h : heap)
        (exact_results vector_results : list ref) (x : ref) :
  List.filter (fun y => String.eqb (id (h y)) (id (h x)))
              (exact_results ++ vector_results) = [x] ->
  let '(h', fused) := simple_fusion h exact_results vector_results in
  In x fused /\ h' x = h x
  /\ forall r, In r fused -> id (h' r) = id (h x) -> r = x.
Proof.
  intros Hx. unfold simple_fusion.
  apply filter_singleton_split in Hx as (l1 & l2 & E & _ & H1 & H2).
  rewrite E. destruct (run_single h l1 l2 x H1 H2) as [Hseen Hobj].
  destruct (inv_run h (l1 ++ x :: l2)) as [Hsame _ Hinv _ _ _].
  split; [|split].
  - apply sorted_elem. now apply Hinv in Hseen as [? _].
  - now apply Hobj.
  - intros r Hr Hid. apply sorted_elem in Hr.
    destruct (Hsame r) as [Hidr _]. rewrite Hidr in Hid.
    assert (seen_ids (run h (l1 ++ x :: l2)) !! id (h x) = Some r) as E'
      by (apply Hinv; done).
    congruence.
Qed.

End FusionMore.

Section FusionLabels.
Import Fusion.

(** An id found once by each search: which hit is returned, and its label.
    The vector hit replaces the exact hit only with a strictly greater
    score; either way the hit returned is labelled
    "{exact type}+{vector type}" and keeps its own score and payload. *)
Theorem found_by_both_label (h : heap)
        (exact_results vector_results : list ref) (e v : ref) :
  List.filter (fun y => String.eqb (id (h y)) (id (h e))) exact_results = [e] ->
  List.filter (fun y => String.eqb (id (h y)) (id (h e))) vector_results = [v] ->
  let '(h', fused) := simple_fusion h exact_results vector_results in
  let winner := if PyFloat.gt (score (h v)) (score (h e)) then v else e in
  In winner fused
  /\ (forall r, In r fused -> id (h' r) = id (h e) -> r = winner)
  /\ search_type (h' winner)
     = String.append (search_type (h e)) (String.append "+" (search_type (h v)))
  /\ score (h' winner) = score (h winner)
  /\ payload (h' winner) = payload (h winner).
Proof.
  intros He Hv. unfold simple_fusion.
  apply filter_singleton_split in He as (pe & se & -> & _ & Hpe & Hse).
  apply filter_singleton_split in Hv as (pv & sv & -> & Hidv & Hpv & Hsv).
  apply String.eqb_eq in Hidv.
  set (i := id (h e)) in *.
  (* up to the exact hit, then on to the vector hit *)
  destruct (run_single h pe [] e Hpe eq_refl) as [Hs1 Ho1]. fold i in Hs1, Ho1.
  pose proof (filter_app_nil _ _ _ Hse Hpv) as Hmid.
  destruct (run_skip h (pe ++ [e]) (se ++ pv) i (no_id_in h _ _ Hmid)) as [Hs2 Ho2].
  rewrite Hs1 in Hs2.
  set (l2 := (pe ++ [e]) ++ se ++ pv) in *.
  assert (Hobj2 : forall y, id (h y) = i -> objs (run h l2) y = h y).
  { intros y Hy. rewrite (Ho2 y Hy). now apply Ho1. }
  (* the vector hit *)
  set (winner := if PyFloat.gt (score (h v)) (score (h e)) then v else e).
  assert (H3 : seen_ids (run h (l2 ++ [v])) !! i = Some winner
               /\ objs (run h (l2 ++ [v])) winner
                  = with_search_type (h winner)
                      (plus_types (search_type (h e)) (search_type (h v)))).
  { rewrite run_snoc. unfold step.
    rewrite (Hobj2 v Hidv), Hidv, Hs2, (Hobj2 e eq_refl). subst winner.
    destruct (PyFloat.gt (score (h v)) (score (h e))); simpl.
    - rewrite lookup_insert_eq. split; [done|].
      unfold set_search_type. rewrite Nat.eqb_refl. now rewrite (Hobj2 v Hidv).
    - split; [done|].
      unfold set_search_type. rewrite Nat.eqb_refl. now rewrite (Hobj2 e eq_refl). }
  destruct H3 as [Hs3 Ho3].
  assert (Hidw : id (h winner) = i) by (subst winner; now destruct (PyFloat.gt _ _)).
  (* the rest of the vector hits *)
  destruct (run_skip h (l2 ++ [v]) sv i (no_id_in h _ _ Hsv)) as [Hs4 Ho4].
  rewrite Hs3 in Hs4. specialize (Ho4 winner Hidw). rewrite Ho3 in Ho4.
  replace ((pe ++ e :: se) ++ pv ++ v :: sv) with ((l2 ++ [v]) ++ sv).
  2:{ subst l2. now rewrite <- !app_assoc. }
  destruct (inv_run h ((l2 ++ [v]) ++ sv)) as [Hsame _ Hinv _ _ _].
  split; [|split; [|split; [|split]]].
  - apply sorted_elem. now apply Hinv in Hs4 as [? _].
  - intros r Hr Hid. apply sorted_elem in Hr.
    destruct (Hsame r) as [Hidr _]. rewrite Hidr in Hid.
    assert (seen_ids (run h ((l2 ++ [v]) ++ sv)) !! i = Some r) by (apply Hinv; done).
    congruence.
  - now rewrite Ho4.
  - now rewrite Ho4.
  - now rewrite Ho4.
Qed.

Lemma sort_desc_ext {A} (key1 key2 : A -> PyFloat.float) (l : list A) :
  (forall x, key1 x = key2 x) -> sort_desc key1 l = sort_desc key2 l.
Proof.
  intros Hk. induction l as [|x l IH]; simpl; [done|]. rewrite IH.
  generalize (sort_desc key2 l). intros m.
  induction m as [|y m IHm]; simpl; [done|].
  rewrite !Hk. now rewrite IHm.
Qed.

(** The sort is stable: among the entries of one score, the order is that
    of the input. *)
Lemma insert_desc_stable {A} (key : A -> PyFloat.float) (s : PyFloat.float)
      (x : A) (l : list A) :
  List.filter (fun y => Qeq_bool (key y) s) (insert_desc key x l)
  = List.filter (fun y => Qeq_bool (key y) s) (x :: l).
Proof.
  induction l as [|y l IH]; [done|].
  simpl insert_desc. destruct (PyFloat.lt (key x) (key y)) eqn:E; [|done].
  simpl in IH |- *. rewrite IH.
  destruct (Qeq_bool (key x) s) eqn:Ex; [|done].
  destruct (Qeq_bool (key y) s) eqn:Ey; [|done].
  exfalso. apply Qeq_bool_iff in Ex, Ey. apply lt_spec in E.
  rewrite Ex, Ey in E. now apply Qlt_irrefl in E.
Qed.

Lemma sort_desc_stable {A} (key : A -> PyFloat.float) (s : PyFloat.float) (l : list A) :
  List.filter (fun y => Qeq_bool (key y) s) (sort_desc key l)
  = List.filter (fun y => Qeq_bool (key y) s) l.
Proof.
  induction l as [|x l IH]; [done|].
  simpl sort_desc. rewrite insert_desc_stable. simpl. now rewrite IH.
Qed.

(** Without a shared id nothing is merged: the loop keeps the list as it
    is and writes to no object. *)
Lemma run_distinct (h : heap) (l : list ref) :
  NoDup (map (fun x => id (h x)) l) ->
  fused_results (run h l) = l /\ forall x, objs (run h l) x = h x.
Proof.
  induction l as [|r l IH] using rev_ind; intros Hnd; [done|].
  rewrite map_app in Hnd. apply NoDup_app in Hnd as (Hnd & Hr & _).
  destruct (IH Hnd) as [Hf Ho]. rewrite run_snoc. unfold step.
  destruct (inv_run h l) as [_ _ Hseen _ _ _].
  rewrite Ho.
  destruct (seen_ids (run h l) !! id (h r)) as [e|] eqn:Hlook.
  - exfalso. apply Hseen in Hlook as [He Hid]. rewrite Hf in He.
    apply (Hr (id (h r))); [|now left].
    apply list_elem_of_In, in_map_iff. exists e.
    split; [exact Hid|now apply list_elem_of_In].
  - simpl. now rewrite Hf.
Qed.

(** When no two hits of the input share an id, [simple_fusion] returns all
    of them, untouched, and hits of equal score come in the order of the
    input: exact hits before vector hits. *)
Theorem ties_keep_input_order (h : heap) (exact_results vector_results : list ref)
        (s : PyFloat.float) :
  NoDup (map (fun x => id (h x)) (exact_results ++ vector_results)) ->
  let '(h', fused) := simple_fusion h exact_results vector_results in
  (forall x, h' x = h x)
  /\ fused ≡ₚ exact_results ++ vector_results
  /\ List.filter (fun x => Qeq_bool (score (h x)) s) fused
     = List.filter (fun x => Qeq_bool (score (h x)) s) exact_results
       ++ List.filter (fun x => Qeq_bool (score (h x)) s) vector_results.
Proof.
  intros Hnd. unfold simple_fusion.
  destruct (run_distinct h _ Hnd) as [Hf Ho]. rewrite Hf.
  split; [exact Ho|]. split; [apply sort_desc_perm|].
  rewrite (sort_desc_ext _ (fun x => score (h x))) by (intros x; now rewrite Ho).
  rewrite (sort_desc_stable (fun x => score (h x))). apply List.filter_app.
Qed.

End FusionLabels.

(** * More on the searchers *)

Section SearchMore.
Import Qdrant Search.
Context {Env : Type} (C : Collaborators Env) (collection_name : string).

Local Abbreviation World := (World Env).

Lemma keeps_objects_refl (w : World) : keeps_objects w w.
Proof. unfold keeps_objects. auto. Qed.

Lemma keeps_objects_trans (w1 w2 w3 : World) :
  keeps_objects w1 w2 -> keeps_objects w2 w3 -> keeps_objects w1 w3.
Proof.
  intros [H1 H1'] [H2 H2']. split; [lia|].
  intros x Hx. rewrite H2' by lia. now apply H1'.
Qed.

(** One round of the loop over the fields, in full. *)
Lemma exact_field_full clean count f sc ty results (w : World) :
  exists w',
    exact_field C collection_name clean count (f, sc, ty) results w
    = (Return
         match fst (client_scroll C collection_name f clean (Z.min count 10) (env w)) with
         | Return (points, _) =>
             let results' := results ++ seq (next_ref w) (length points) in
             (if nonempty results' && String.eqb ty "exact" then Break else Continue,
              results')
         | Raise _ => (Continue, results)
         end, w')
    /\ env w' = snd (client_scroll C collection_name f clean (Z.min count 10) (env w))
    /\ calls w' = calls w ++ [CallScroll collection_name f clean (Z.min count 10)]
    /\ embedding_cache w' = embedding_cache w
    /\ keeps_objects w w'
    /\ match fst (client_scroll C collection_name f clean (Z.min count 10) (env w)) with
       | Return (points, _) =>
           next_ref w' = next_ref w + length points
           /\ map (objects w') (seq (next_ref w) (length points))
              = map (exact_result sc ty) points
       | Raise _ => next_ref w' = next_ref w
       end.
Proof.
  unfold exact_field, try_except, bind, scroll, request.
  destruct (client_scroll C collection_name f clean (Z.min count 10) (env w))
    as [[[pts nxt]|e] e']; cbn [fst snd].
  - destruct (append_all_spec (exact_result sc ty) pts results
                (with_env e' (log (CallScroll collection_name f clean (Z.min count 10)) w)))
      as (w' & -> & He & Hc & Hk & Hn & Hold & Hnew).
    cbn [next_ref with_env log env calls embedding_cache objects] in *.
    exists w'. split; [now destruct (nonempty _ && _)|].
    unfold keeps_objects. repeat split; try done. lia.
  - eexists. split; [reflexivity|]. cbn. unfold keeps_objects. repeat split; done.
Qed.

(** [exact_search_async] in full: it returns, as new objects, the hits
    that [exact_hits] reads off the store. *)
Lemma exact_search_full (query : string) (count : Z) (w : World) :
  exists l w',
    exact_search_async C collection_name query count w = (Return l, w')
    /\ keeps_objects w w'
    /\ embedding_cache w' = embedding_cache w
    /\ l = seq (next_ref w) (length l)
    /\ next_ref w' = next_ref w + length l
    /\ map (objects w') l = exact_hits C collection_name query count (env w)
    /\ calls w' = calls w ++ exact_requests C collection_name query count (env w).
Proof.
  unfold exact_search_async, search_fields, exact_hits, exact_requests.
  set (clean := PyStr.upper (PyStr.strip query)).
  cbn [exact_fields]. unfold bind at 1.
  destruct (exact_field_full clean count "partNumber_airgas_text"
              PyFloat.f_1_0 "exact" [] w) as (w1 & -> & He1 & Hc1 & Hk1 & Ho1 & Hn1).
  destruct (client_scroll C collection_name "partNumber_airgas_text" clean
              (Z.min count 10) (env w)) as [a1 e1] eqn:Ha1.
  cbn [fst snd] in *.
  assert (Hsecond : next_ref w1 = next_ref w ->
            exists l w',
              bind (exact_field C collection_name clean count
                      ("manufacturerPartNumber_text", PyFloat.f_0_9, "exact_mfg") [])
                   (fun r => match r with
                             | (Break, results) => ret results
                             | (Continue, results) => ret results
                             end) w1 = (Return l, w')
              /\ keeps_objects w w'
              /\ embedding_cache w' = embedding_cache w
              /\ l = seq (next_ref w) (length l)
              /\ next_ref w' = next_ref w + length l
              /\ map (objects w') l
                 = match fst (client_scroll C collection_name
                                "manufacturerPartNumber_text" clean (Z.min count 10) e1) with
                   | Return (points, _) =>
                       map (exact_result PyFloat.f_0_9 "exact_mfg") points
                   | Raise _ => []
                   end
              /\ calls w'
                 = calls w
                   ++ [CallScroll collection_name "partNumber_airgas_text" clean
                         (Z.min count 10);
                       CallScroll collection_name "manufacturerPartNumber_text" clean
                         (Z.min count 10)]).
  { intros Hn. unfold bind.
    destruct (exact_field_full clean count "manufacturerPartNumber_text"
                PyFloat.f_0_9 "exact_mfg" [] w1) as (w2 & -> & _ & Hc2 & Hk2 & Ho2 & Hn2).
    assert (Hc : calls w2
                 = calls w
                   ++ [CallScroll collection_name "partNumber_airgas_text" clean
                         (Z.min count 10);
                       CallScroll collection_name "manufacturerPartNumber_text" clean
                         (Z.min count 10)])
      by (rewrite Hc2, Hc1, <- app_assoc; reflexivity).
    rewrite He1 in Hn2 |- *. rewrite Hn in Hn2 |- *.
    pose proof (keeps_objects_trans _ _ _ Ho1 Ho2) as Ho.
    destruct (fst (client_scroll C collection_name "manufacturerPartNumber_text"
                     clean (Z.min count 10) e1)) as [[pts nxt]|x].
    - destruct Hn2 as [Hn2 Hobj]. cbn zeta. cbn [app].
      eexists _, w2.
      split; [now destruct (nonempty _ && _)|].
      rewrite length_seq. split; [exact Ho|]. repeat split; try done; congruence.
    - eexists _, w2. split; [reflexivity|]. simpl.
      split; [exact Ho|]. repeat split; try done; try congruence. lia. }
  destruct a1 as [[[|p pts] nxt]|x].
  - destruct Hn1 as [Hn1 _]. simpl in Hn1. cbn [length seq app nonempty andb].
    apply Hsecond. lia.
  - destruct Hn1 as [Hn1 Hobj]. cbn zeta. cbn [app nonempty andb String.eqb].
    change (nonempty (seq (next_ref w) (length (p :: pts)))) with true.
    eexists _, w1. split; [reflexivity|].
    rewrite length_seq. split; [exact Ho1|]. repeat split; try done; congruence.
  - apply Hsecond. exact Hn1.
Qed.

(** The embedding lookup creates no object and sends at most one request,
    to the model, and only for a text that is not cached. *)
Lemma get_embedding_cached_full (text : string) (w : World) :
  exists v w',
    _get_embedding_cached C text w = (Return v, w')
    /\ objects w' = objects w /\ next_ref w' = next_ref w
    /\ cache_find text (embedding_cache w') = Some v
    /\ match cache_find text (embedding_cache w) with
       | Some v0 => v = v0 /\ calls w' = calls w /\ env w' = env w
       | None =>
           calls w' = calls w ++ [CallQueryEmbed [text]]
           /\ env w' = snd (model_query_embed C [text] (env w))
           /\ v = match fst (model_query_embed C [text] (env w)) with
                  | Return (query_vector :: _) => query_vector
                  | _ => repeat PyFloat.f_0_0 384
                  end
       end.
Proof.
  unfold _get_embedding_cached.
  assert (Hhead : forall v c, cache_find text ((text, v) :: c) = Some v).
  { intros v c. unfold cache_find. cbn [find fst]. now rewrite String.eqb_refl. }
  destruct (cache_find text (embedding_cache w)) as [v0|] eqn:Hfind.
  - eexists _, _. split; [reflexivity|].
    cbn [objects next_ref embedding_cache calls env with_cache]. now rewrite Hhead.
  - unfold embedding_uncached, try_except, bind, query_embed, request.
    destruct (model_query_embed C [text] (env w)) as [[[|v vs]|x] e'];
      unfold ret, raise; cbn [fst snd];
      (eexists _, _; split; [reflexivity|];
       cbn [objects next_ref embedding_cache calls env with_cache with_env log];
       unfold maxsize; cbn [take]; rewrite Hhead; done).
Qed.

(** [vector_search_async] in full. *)
Lemma vector_search_full (query : string) (count : Z) (w : World) :
  exists v w1 l w',
    _get_embedding_cached C query w = (Return v, w1)
    /\ vector_search_async C collection_name query count w = (Return l, w')
    /\ keeps_objects w w'
    /\ embedding_cache w' = embedding_cache w1
    /\ calls w' = calls w1 ++ [CallQueryPoints collection_name v count]
    /\ l = seq (next_ref w) (length l)
    /\ next_ref w' = next_ref w + length l
    /\ map (objects w') l
       = vector_hits (fst (client_query_points C collection_name v count (env w1))).
Proof.
  destruct (get_embedding_cached_full query w) as (v & w1 & Hget & Ho & Hn & _ & _).
  exists v, w1. unfold vector_search_async, try_except, bind. rewrite Hget.
  unfold query_points, request.
  destruct (client_query_points C collection_name v count (env w1)) as [[pts|x] e'];
    cbn [fst vector_hits].
  - destruct (append_all_spec vector_result (List.filter relevant pts) []
                (with_env e' (log (CallQueryPoints collection_name v count) w1)))
      as (w' & -> & _ & Hc & Hk & Hn' & Hold & Hnew).
    cbn [next_ref with_env log env calls embedding_cache objects app] in *.
    eexists _, w'. split; [done|]. split; [reflexivity|].
    rewrite length_seq, Hn in *. unfold keeps_objects.
    repeat split; try done; try lia.
    intros x Hx. rewrite Hold by lia. now rewrite Ho.
  - eexists _, _. split; [done|]. split; [reflexivity|].
    unfold keeps_objects, with_env, log.
    cbn [objects next_ref embedding_cache calls env length].
    rewrite Ho, Hn. repeat split; try done; lia.
Qed.

End SearchMore.

(** ** The first place of the fused list *)

Section FusionHead.
Import Fusion.

Lemma append_assoc3 (a b c : string) :
  String.append (String.append a b) c = String.append a (String.append b c).
Proof.
  induction a as [|x a IH]; [reflexivity|].
  change (String x (String.append (String.append a b) c)
          = String x (String.append a (String.append b c))).
  now rewrite IH.
Qed.

(** A first hit that no later hit outscores keeps the first place of
    [fused_results], and its type is only ever extended. *)
Lemma run_head (h : heap) (x : ref) (l : list ref) :
  (forall y, y ∈ l -> PyFloat.gt (score (h y)) (score (h x)) = false) ->
  exists t suffix,
    fused_results (run h (x :: l)) = x :: t
    /\ search_type (objs (run h (x :: l)) x) = String.append (search_type (h x)) suffix.
Proof.
  induction l as [|r l IH] using rev_ind; intros Hl.
  - exists [], "". unfold run. simpl. unfold step. simpl. rewrite lookup_empty. simpl.
    split; [done|]. clear. induction (search_type (h x)) as [|c s IH]; [done|].
    change (String c s = String c (String.append s "")). now rewrite <- IH.
  - destruct IH as (t & suffix & Ht & Hty); [intros y Hy; apply Hl, elem_of_app; now left|].
    rewrite app_comm_cons, run_snoc.
    destruct (inv_run h (x :: l)) as [Hsame _ Hseen _ _ _].
    assert (Hx : forall e, seen_ids (run h (x :: l)) !! id (objs (run h (x :: l)) r) = Some e ->
                   id (objs (run h (x :: l)) x) = id (objs (run h (x :: l)) r) -> e = x).
    { intros e He E.
      assert (Hx : seen_ids (run h (x :: l)) !! id (objs (run h (x :: l)) r) = Some x).
      { apply Hseen. split; [rewrite Ht; now left|].
        rewrite <- E. symmetry. apply Hsame. }
      congruence. }
    assert (Hgt : forall e, seen_ids (run h (x :: l)) !! id (objs (run h (x :: l)) r) = Some e ->
                    id (objs (run h (x :: l)) x) = id (objs (run h (x :: l)) r) ->
                    PyFloat.gt (score (objs (run h (x :: l)) r))
                               (score (objs (run h (x :: l)) e)) = false).
    { intros e He E. rewrite (Hx e He E).
      destruct (Hsame x) as [_ ->]. destruct (Hsame r) as [_ ->].
      apply Hl, elem_of_app. right. now left. }
    unfold step.
    destruct (seen_ids (run h (x :: l)) !! _) as [e|] eqn:Hlook.
    + destruct (PyFloat.gt _ _) eqn:E; cbn [fused_results objs].
      * rewrite Ht. simpl.
        destruct (set_search_type_frame (objs (run h (x :: l))) r
                    (plus_types (search_type (objs (run h (x :: l)) e))
                                (search_type (objs (run h (x :: l)) r))) x) as [-> _].
        destruct (String.eqb_spec (id (objs (run h (x :: l)) x))
                                  (id (objs (run h (x :: l)) r))) as [Eid|Eid];
          [rewrite (Hgt e eq_refl Eid) in E; done|].
        eexists _, suffix. split; [reflexivity|].
        unfold set_search_type.
        destruct (Nat.eqb_spec x r) as [->|]; [done|exact Hty].
      * exists t. unfold set_search_type.
        destruct (Nat.eqb_spec x e) as [->|].
        -- eexists. split; [exact Ht|]. cbn [search_type with_search_type].
           unfold plus_types. rewrite Hty. apply append_assoc3.
        -- exists suffix. done.
    + exists (t ++ [r]), suffix. cbn [fused_results objs]. rewrite Ht. done.
Qed.

(** The sort leaves a first entry of greatest key where it is. *)
Lemma sort_desc_head {A} (key : A -> PyFloat.float) (x : A) (t : list A) :
  (forall y, y ∈ t -> PyFloat.lt (key x) (key y) = false) ->
  sort_desc key (x :: t) = x :: sort_desc key t.
Proof.
  intros Ht. simpl.
  assert (Hs : forall y, y ∈ sort_desc key t -> PyFloat.lt (key x) (key y) = false)
    by (intros y Hy; apply Ht; now rewrite <- (sort_desc_perm key t)).
  destruct (sort_desc key t) as [|y m]; [done|]. simpl.
  rewrite Hs; [done|now left].
Qed.


(** If no hit outscores the first hit of the exact list, [simple_fusion]
    returns that hit first. *)
Lemma simple_fusion_head (h : heap) (x : ref) (l1 l2 : list ref) :
  (forall y, In y (l1 ++ l2) -> (score (h y) <= score (h x))%Q) ->
  exists t suffix,
    snd (simple_fusion h (x :: l1) l2) = x :: t
    /\ search_type (fst (simple_fusion h (x :: l1) l2) x)
       = String.append (search_type (h x)) suffix.
Proof.
  intros Hle. unfold simple_fusion. cbn [fst snd].
  assert (Hnot : forall a b : PyFloat.float, (a <= b)%Q -> PyFloat.lt b a = false).
  { intros a b Hab. destruct (PyFloat.lt b a) eqn:E; [|done].
    apply lt_spec in E. now apply Qlt_not_le in E. }
  change ((x :: l1) ++ l2) with (x :: (l1 ++ l2)).
  destruct (run_head h x (l1 ++ l2)) as (t & suffix & Ht & Hty).
  { intros y Hy. apply Hnot, Hle. now apply list_elem_of_In. }
  rewrite Ht. rewrite sort_desc_head.
  - eauto.
  - intros y Hy.
    destruct (run_frame h (x :: l1 ++ l2) x) as (_ & -> & _).
    destruct (run_frame h (x :: l1 ++ l2) y) as (_ & -> & _).
    apply Hnot.
    assert (Hin : y ∈ x :: l1 ++ l2).
    { apply (inv_sub _ _ _ (inv_run h (x :: l1 ++ l2))). rewrite Ht. now right. }
    apply elem_of_cons in Hin as [->|Hin]; [apply Qle_refl|].
    apply Hle. now apply list_elem_of_In.
Qed.

End FusionHead.

(** * The search from end to end *)

Section SearchEndToEnd.
Import Qdrant Search.
Context {Env : Type} (C : Collaborators Env) (collection_name : string).

Local Abbreviation World := (World Env).

(** The fusion loop writes only to objects of its input. *)
Lemma run_outside (h : heap) (l : list ref) (x : ref) :
  x ∉ l -> Fusion.objs (Fusion.run h l) x = h x.
Proof.
  induction l as [|r l IH] using rev_ind; intros Hx; [done|].
  rewrite run_snoc.
  assert (Hl : x ∉ l) by (intros H; apply Hx, elem_of_app; now left).
  assert (Hr : x <> r) by (intros ->; apply Hx, elem_of_app; right; now left).
  rewrite <- (IH Hl).
  destruct (inv_run h l) as [_ _ Hseen _ _ Hsub].
  unfold Fusion.step.
  destruct (Fusion.seen_ids (Fusion.run h l) !! _) as [e|] eqn:Hlook; [|done].
  apply Hseen in Hlook as [He _]. apply Hsub in He.
  destruct (PyFloat.gt _ _); simpl; unfold set_search_type.
  - destruct (Nat.eqb_spec x r); [done|done].
  - destruct (Nat.eqb_spec x e) as [->|]; [done|done].
Qed.

Lemma exact_hits_uniform (query : string) (count : Z) (e : Env) :
  (forall o, In o (exact_hits C collection_name query count e) ->
     score o = PyFloat.f_1_0 /\ search_type o = "exact")
  \/ (forall o, In o (exact_hits C collection_name query count e) ->
        score o = PyFloat.f_0_9 /\ search_type o = "exact_mfg").
Proof.
  unfold exact_hits.
  destruct (fst (client_scroll C collection_name "partNumber_airgas_text" _ _ e))
    as [[[|p ps] nxt]|x].
  2: { left. intros o Ho. apply in_map_iff in Ho as (q & <- & _). done. }
  all: right; destruct (fst (client_scroll C collection_name
                               "manufacturerPartNumber_text" _ _ _)) as [[pts nxt']|y];
    intros o Ho; [apply in_map_iff in Ho as (q & <- & _); done|destruct Ho].
Qed.

(** The hits of one exact search all carry the same score and the same
    type: 1.0 and "exact", or 0.9 and "exact_mfg"; the two kinds are never
    mixed.  Every hit has boost factor 1.0, and its id is the part number
    of its payload, or else the id of its point. *)
Theorem exact_results_uniform (query : string) (count : Z) (w : World) :
  exists returned w',
    exact_search_async C collection_name query count w = (Return returned, w')
    /\ ((forall r, In r returned ->
           score (objects w' r) = PyFloat.f_1_0 /\ search_type (objects w' r) = "exact")
        \/ (forall r, In r returned ->
              score (objects w' r) = PyFloat.f_0_9
              /\ search_type (objects w' r) = "exact_mfg"))
    /\ (forall r, In r returned ->
          boost_factor (objects w' r) = PyFloat.f_1_0
          /\ exists point_id,
               qdrant_id (objects w' r) = Some point_id
               /\ id (objects w' r)
                  = payload_get (payload (objects w' r)) "partNumber_airgas_text" point_id).
Proof.
  destruct (exact_search_full C collection_name query count w)
    as (l & w' & Hrun & _ & _ & _ & _ & Hobj & _).
  exists l, w'. split; [exact Hrun|].
  assert (Hin : forall r, In r l ->
            In (objects w' r) (exact_hits C collection_name query count (env w)))
    by (intros r Hr; rewrite <- Hobj; now apply in_map).
  split.
  - destruct (exact_hits_uniform query count (env w)) as [H|H]; [left|right];
      intros r Hr; apply H, Hin, Hr.
  - intros r Hr. apply Hin in Hr. revert Hr. generalize (objects w' r). intros o.
    unfold exact_hits.
    destruct (fst (client_scroll C collection_name "partNumber_airgas_text" _ _ _))
      as [[[|p ps] nxt]|x].
    2: { intros Ho. apply in_map_iff in Ho as (q & <- & _). simpl. eauto. }
    all: destruct (fst (client_scroll C collection_name
                          "manufacturerPartNumber_text" _ _ _)) as [[pts nxt']|y];
      intros Ho; [apply in_map_iff in Ho as (q & <- & _); simpl; eauto|destruct Ho].
Qed.


(** [parallel_search], step by step. *)
Lemma parallel_search_full (query : string) (count : Z) (w : World) :
  exists l1 l2 v w1 wc w2,
    exact_search_async C collection_name query count w = (Return l1, w1)
    /\ _get_embedding_cached C query w1 = (Return v, wc)
    /\ vector_search_async C collection_name query (count * 2) w1 = (Return l2, w2)
    /\ parallel_search C collection_name query count w
       = (Return (slice_to (snd (Fusion.simple_fusion (objects w2) l1 l2)) count),
          {| env := env w2;
             objects := fst (Fusion.simple_fusion (objects w2) l1 l2);
             next_ref := next_ref w2;
             embedding_cache := embedding_cache w2; calls := calls w2 |})
    /\ l1 = seq (next_ref w) (length l1)
    /\ l2 = seq (next_ref w + length l1) (length l2)
    /\ next_ref w2 = next_ref w + length l1 + length l2
    /\ (forall x, x < next_ref w -> objects w2 x = objects w x)
    /\ map (objects w2) l1 = exact_hits C collection_name query count (env w)
    /\ map (objects w2) l2
       = vector_hits (fst (client_query_points C collection_name v (count * 2) (env wc)))
    /\ embedding_cache w1 = embedding_cache w
    /\ embedding_cache w2 = embedding_cache wc
    /\ calls w2
       = calls w ++ exact_requests C collection_name query count (env w)
           ++ match cache_find query (embedding_cache w) with
              | Some _ => []
              | None => [CallQueryEmbed [query]]
              end
           ++ [CallQueryPoints collection_name v (count * 2)].
Proof.
  destruct (exact_search_full C collection_name query count w)
    as (l1 & w1 & H1 & [Hle1 Ho1] & Hk1 & Hl1 & Hn1 & Hobj1 & Hc1).
  destruct (vector_search_full C collection_name query (count * 2) w1)
    as (v & wc & l2 & w2 & Hget & H2 & [Hle2 Ho2] & Hk2 & Hc2 & Hl2 & Hn2 & Hobj2).
  destruct (get_embedding_cached_full C query w1)
    as (v' & wc' & Hget' & _ & _ & _ & Hcase).
  rewrite Hget in Hget'. injection Hget' as <- <-.
  exists l1, l2, v, w1, wc, w2.
  split; [exact H1|]. split; [exact Hget|]. split; [exact H2|].
  split.
  { unfold parallel_search, bind. rewrite H1, H2. unfold simple_fusion.
    now destruct (Fusion.simple_fusion (objects w2) l1 l2). }
  split; [exact Hl1|]. split; [now rewrite <- Hn1|]. split; [lia|].
  split; [intros x Hx; rewrite Ho2 by lia; now apply Ho1|].
  split.
  { rewrite <- Hobj1. apply map_ext_in. intros r Hr. apply Ho2.
    rewrite Hl1 in Hr. apply in_seq in Hr. lia. }
  split; [exact Hobj2|]. split; [exact Hk1|]. split; [exact Hk2|].
  rewrite Hc2, Hk1 in *.
  destruct (cache_find query (embedding_cache w)).
  - destruct Hcase as (_ & -> & _). rewrite Hc1. now rewrite <- !app_assoc.
  - destruct Hcase as (-> & _). rewrite Hc1. now rewrite <- !app_assoc.
Qed.


Lemma fused_elem (h : heap) (l1 l2 : list ref) (r : ref) (count : Z) :
  In r (slice_to (snd (Fusion.simple_fusion h l1 l2)) count) -> In r (l1 ++ l2).
Proof.
  intros Hr. unfold Fusion.simple_fusion in Hr. cbn [snd] in Hr.
  destruct (slice_to_sublist (sort_desc (fun x => score (Fusion.objs (Fusion.run h (l1 ++ l2)) x))
                                (Fusion.fused_results (Fusion.run h (l1 ++ l2)))) count)
    as [k Hk].
  assert (Hin : In r (sort_desc (fun x => score (Fusion.objs (Fusion.run h (l1 ++ l2)) x))
                        (Fusion.fused_results (Fusion.run h (l1 ++ l2)))))
    by (rewrite Hk; apply in_or_app; now left).
  apply sorted_elem in Hin. apply list_elem_of_In.
  now apply (inv_sub _ _ _ (inv_run h (l1 ++ l2))).
Qed.

Lemma exact_hits_floor (query : string) (count : Z) (e : Env) (o : SearchResult) :
  In o (exact_hits C collection_name query count e) -> (PyFloat.f_0_4 <= score o)%Q.
Proof.
  intros Ho.
  destruct (exact_hits_uniform query count e) as [H|H];
    destruct (H o Ho) as [-> _]; done.
Qed.

Lemma vector_hits_floor (answer : outcome (list ScoredPoint)) (o : SearchResult) :
  In o (vector_hits answer) -> (PyFloat.f_0_4 <= score o)%Q.
Proof.
  destruct answer as [pts|x]; [|intros []]. simpl.
  intros Ho. apply in_map_iff in Ho as (p & <- & Hp).
  apply filter_In in Hp as [_ Hp]. simpl. now apply ge_spec.
Qed.

(** No hit that [parallel_search] returns scores below 0.4: an exact hit
    scores 1.0 or 0.9, and a hit of the index is kept only from 0.4 on. *)
Theorem parallel_search_score_floor (query : string) (count : Z) (w : World) :
  exists returned w',
    parallel_search C collection_name query count w = (Return returned, w')
    /\ forall r, In r returned -> (PyFloat.f_0_4 <= score (objects w' r))%Q.
Proof.
  destruct (parallel_search_full query count w)
    as (l1 & l2 & v & w1 & wc & w2 & _ & _ & _ & -> & _ & _ & _ & _ & Hobj1 & Hobj2 & _).
  eexists _, _. split; [reflexivity|]. cbn [objects].
  intros r Hr. apply fused_elem in Hr.
  unfold Fusion.simple_fusion. cbn [fst].
  destruct (run_frame (objects w2) (l1 ++ l2) r) as (_ & -> & _).
  apply in_app_or in Hr as [Hr|Hr].
  - apply (exact_hits_floor query count (env w)). rewrite <- Hobj1. now apply in_map.
  - eapply vector_hits_floor. rewrite <- Hobj2. now apply in_map.
Qed.

(** [parallel_search] returns objects it has created itself, and leaves
    every object that existed before the call as it was: the labels that
    the fusion writes never reach the results of an earlier search. *)
Theorem parallel_search_isolation (query : string) (count : Z) (w : World) :
  exists returned w',
    parallel_search C collection_name query count w = (Return returned, w')
    /\ (forall r, In r returned -> next_ref w <= r < next_ref w')
    /\ (forall x, x < next_ref w -> objects w' x = objects w x).
Proof.
  destruct (parallel_search_full query count w)
    as (l1 & l2 & v & w1 & wc & w2 & _ & _ & _ & -> & Hl1 & Hl2 & Hn & Hold & _).
  eexists _, _. split; [reflexivity|]. cbn [objects next_ref].
  assert (Hfresh : forall r, In r (l1 ++ l2) -> next_ref w <= r < next_ref w2).
  { intros r Hr. apply in_app_or in Hr as [Hr|Hr].
    - rewrite Hl1 in Hr. apply in_seq in Hr. lia.
    - rewrite Hl2 in Hr. apply in_seq in Hr. lia. }
  split.
  - intros r Hr. apply Hfresh. eapply fused_elem, Hr.
  - intros x Hx. unfold Fusion.simple_fusion. cbn [fst].
    rewrite run_outside; [now apply Hold|].
    intros Hin. apply list_elem_of_In, Hfresh in Hin. lia.
Qed.



(** A part number filed in the store ranks first.  If the lookup under
    the primary field finds the query, at least one hit is asked for and
    the index gives no score above 1.0 (it returns cosine similarities),
    then the first hit returned is the first point of that lookup, with
    score 1.0 and a type that starts with "exact". *)
Theorem exact_match_ranks_first (query : string) (count : Z) (w : World)
        (p : Record_) (ps : list Record_) (nxt : option PointId) (e1 : Env) :
  client_scroll C collection_name "partNumber_airgas_text"
    (PyStr.upper (PyStr.strip query)) (Z.min count 10) (env w)
  = (Return (p :: ps, nxt), e1) ->
  (forall v limit e pts q,
     fst (client_query_points C collection_name v limit e) = Return pts ->
     In q pts -> (point_score q <= 1)%Q) ->
  (1 <= count)%Z ->
  exists r rest w' suffix,
    parallel_search C collection_name query count w = (Return (r :: rest), w')
    /\ score (objects w' r) = PyFloat.f_1_0
    /\ search_type (objects w' r) = String.append "exact" suffix
    /\ id (objects w' r)
       = payload_get (record_payload p) "partNumber_airgas_text" (str (record_id p))
    /\ payload (objects w' r) = record_payload p
    /\ qdrant_id (objects w' r) = Some (str (record_id p)).
Proof.
  intros Hscroll Hcos Hcount.
  destruct (parallel_search_full query count w)
    as (l1 & l2 & v & w1 & wc & w2 & _ & _ & _ & -> & Hl1 & _ & _ & _ & Hobj1 & Hobj2 & _).
  unfold exact_hits in Hobj1. rewrite Hscroll in Hobj1. cbn [fst] in Hobj1.
  destruct l1 as [|x l1]; [done|]. cbn [map] in Hobj1.
  injection Hobj1 as Hx Hobj1.
  assert (Hle : forall y, In y (l1 ++ l2) ->
                  (score (objects w2 y) <= score (objects w2 x))%Q).
  { intros y Hy. rewrite Hx. cbn [score exact_result].
    apply in_app_or in Hy as [Hy|Hy].
    - apply (in_map (objects w2)) in Hy. rewrite Hobj1 in Hy.
      apply in_map_iff in Hy as (q & <- & _). apply Qle_refl.
    - apply (in_map (objects w2)) in Hy. rewrite Hobj2 in Hy.
      destruct (fst (client_query_points C collection_name v (count * 2) (env wc)))
        as [pts|err] eqn:Hq; [|destruct Hy].
      cbn [vector_hits] in Hy. apply in_map_iff in Hy as (q & <- & Hq').
      apply filter_In in Hq' as [Hq' _]. cbn [score vector_result].
      exact (Hcos _ _ _ _ q Hq Hq'). }
  destruct (simple_fusion_head (objects w2) x l1 l2 Hle) as (t & suffix & Ht & Hty).
  rewrite Ht.
  assert (Hslice : slice_to (x :: t) count = x :: take (Z.to_nat count - 1) t).
  { unfold slice_to. destruct (Z.leb_spec 0 count); [|lia].
    destruct (Z.to_nat count) as [|n] eqn:En; [lia|].
    cbn [take]. f_equal. f_equal. lia. }
  rewrite Hslice. eexists x, _, _, suffix. split; [reflexivity|]. cbn [objects].
  destruct (run_frame (objects w2) ((x :: l1) ++ l2) x) as (Hid & Hsc & Hpl & Hq & _).
  unfold Fusion.simple_fusion in Hty |- *. cbn [fst] in Hty |- *.
  rewrite Hid, Hsc, Hpl, Hq, Hty, Hx. done.
Qed.

End SearchEndToEnd.

(** * The embedding cache *)

Section CacheFacts.
Import Qdrant Search.
Context {Env : Type}.

Local Abbreviation World := (World Env).

Lemma cache_find_None (text : string) (c : list (string * list PyFloat.float)) :
  cache_find text c = None <-> ~ In text (map fst c).
Proof.
  unfold cache_find. induction c as [|[k v] c IH]; simpl; [tauto|].
  destruct (String.eqb_spec k text) as [->|E]; simpl.
  - split; [done|]. intros H. exfalso. apply H. now left.
  - rewrite IH. tauto.
Qed.

Lemma cache_drop_keys (text : string) (c : list (string * list PyFloat.float)) :
  ~ In text (map fst (cache_drop text c))
  /\ (NoDup (map fst c) -> NoDup (map fst (cache_drop text c)))
  /\ (In text (map fst c) -> length (cache_drop text c) < length c).
Proof.
  unfold cache_drop. split; [|split].
  - intros H. apply in_map_iff in H as ([k v] & E & H). simpl in E. subst k.
    apply list_elem_of_In, list_elem_of_filter in H as [H _].
    simpl in H. now rewrite String.eqb_refl in H.
  - intros H. eapply sublist_NoDup; [exact H|].
    apply fmap_sublist, sublist_filter.
  - intros H. apply in_map_iff in H as ([k v] & E & H). simpl in E. subst k.
    eapply length_filter_lt; [apply list_elem_of_In, H|].
    simpl. now rewrite String.eqb_refl.
Qed.

(** A second lookup of a text is answered from the cache: it returns the
    vector of the first lookup and sends no request, whatever model is then
    in place. *)
Theorem embedding_lookup_is_cached (C C' : Collaborators Env) (text : string) (w : World) :
  exists v w1 w2,
    _get_embedding_cached C text w = (Return v, w1)
    /\ _get_embedding_cached C' text w1 = (Return v, w2)
    /\ calls w2 = calls w1 /\ env w2 = env w1.
Proof.
  destruct (get_embedding_cached_full C text w) as (v & w1 & H1 & _ & _ & Hfind & _).
  destruct (get_embedding_cached_full C' text w1) as (v' & w2 & H2 & _ & _ & _ & Hcase').
  rewrite Hfind in Hcase'. destruct Hcase' as (-> & Hc & He).
  exists v, w1, w2. done.
Qed.


(** After [clear_cache] nothing is remembered: the next lookup of any text
    asks the model again, and its answer is then the only entry of the
    cache. *)
Theorem clear_cache_forgets (C : Collaborators Env) (text : string) (w : World) :
  exists w0 v w1,
    clear_cache w = (Return tt, w0)
    /\ _get_embedding_cached C text w0 = (Return v, w1)
    /\ calls w1 = calls w ++ [CallQueryEmbed [text]]
    /\ embedding_cache w1 = [(text, v)]
    /\ v = match fst (model_query_embed C [text] (env w)) with
           | Return (query_vector :: _) => query_vector
           | _ => repeat PyFloat.f_0_0 384
           end
    /\ objects w1 = objects w /\ next_ref w1 = next_ref w.
Proof.
  unfold clear_cache. exists (with_cache [] w).
  unfold _get_embedding_cached, embedding_uncached, try_except, bind, query_embed, request.
  cbn [embedding_cache with_cache cache_find find fmap option_fmap option_map env].
  destruct (model_query_embed C [text] (env w)) as [[[|q qs]|x] e'];
    unfold ret, raise; cbn [fst snd];
    (eexists _, _; split; [reflexivity|]; split; [reflexivity|]; done).
Qed.

(** The cache is bounded: its keys stay distinct and it never holds more
    than 2000 entries. *)
Theorem embedding_cache_bounded (C : Collaborators Env) (text : string) (w : World) :
  NoDup (map fst (embedding_cache w)) -> length (embedding_cache w) <= maxsize ->
  NoDup (map fst (embedding_cache (snd (_get_embedding_cached C text w))))
  /\ length (embedding_cache (snd (_get_embedding_cached C text w))) <= maxsize.
Proof.
  intros Hnd Hlen. unfold _get_embedding_cached.
  destruct (cache_find text (embedding_cache w)) as [v|] eqn:Hfind.
  - cbn [snd embedding_cache with_cache map fst length].
    destruct (cache_drop_keys text (embedding_cache w)) as (Hnot & Hk & Hlt).
    assert (Hin : In text (map fst (embedding_cache w))).
    { destruct (in_dec string_dec text (map fst (embedding_cache w))); [done|].
      apply cache_find_None in n. congruence. }
    split; [|specialize (Hlt Hin); lia].
    apply NoDup_cons. split; [|now apply Hk].
    intros H. apply Hnot. now apply list_elem_of_In.
  - apply cache_find_None in Hfind.
    unfold embedding_uncached, try_except, bind, query_embed, request.
    destruct (model_query_embed C [text] (env w)) as [[[|q qs]|x] e'];
      unfold ret, raise; cbn [snd embedding_cache with_cache with_env log];
      (split; [|rewrite length_take; lia]);
      (eapply NoDup_map_prefix; [apply prefix_take|]);
      cbn [map fst]; apply NoDup_cons; (split; [|done]);
      intros H; apply Hfind; now apply list_elem_of_In.
Qed.

End CacheFacts.

(** * More on the reciprocal rank fusion *)

Section RRFMore.
Import Qdrant RRF.
Local Open Scope Q_scope.












End RRFMore.

(** * The linear fusion *)

Section LinearFacts.
Import Qdrant Linear.
Local Open Scope Q_scope.




Lemma linear_lookup_In (d : combined) (i : PointId) (e : item) :
  lookup d i = Some e -> In (i, e) d.
Proof.
  induction d as [|[a x] d IH]; simpl; [done|].
  destruct (PointId_eqb_spec i a) as [->|Hne].
  - intros [= ->]. now left.
  - intros H. right. now apply IH.
Qed.










End LinearFacts.

(** * Normalising scores *)

Section NormalizeFacts.
Local Open Scope Q_scope.
Variable pow_half : PyFloat.float -> PyFloat.float.




End NormalizeFacts.

Section NormalizeTwice.
Local Open Scope Q_scope.
Variable pow_half : PyFloat.float -> PyFloat.float.


End NormalizeTwice.

(** * More on the classifier *)

Section ClassifierMore.
Import PyStr Re PartNumberClassifier.

Lemma chars_of_chars (l : list ascii) : chars (of_chars l) = l.
Proof. apply list_ascii_of_string_of_list_ascii. Qed.

Lemma length_chars (s : string) : length (chars s) = String.length s.
Proof. induction s as [|c s IH]; simpl; [done|]. now rewrite <- IH. Qed.

(** [lstrip_chars] cuts a prefix of blanks. *)
Lemma lstrip_chars_suffix (l : list ascii) :
  exists pre, l = pre ++ lstrip_chars l /\ forallb is_space pre = true.
Proof.
  induction l as [|c l (pre & IH & Hpre)]; simpl; [now exists []|].
  destruct (is_space c) eqn:E.
  - exists (c :: pre). simpl. rewrite E, Hpre. split; [congruence|done].
  - now exists [].
Qed.

(** What [strip] keeps lies between two runs of blanks. *)
Lemma strip_spec (s : string) :
  exists pre post,
    chars s = pre ++ chars (strip s) ++ post
    /\ forallb is_space pre = true /\ forallb is_space post = true.
Proof.
  unfold strip. rewrite chars_of_chars.
  destruct (lstrip_chars_suffix (chars s)) as (pre & E1 & Hpre).
  destruct (lstrip_chars_suffix (rev (lstrip_chars (chars s)))) as (post & E2 & Hpost).
  exists pre, (rev post). split; [|split; [done|]].
  - rewrite E1 at 1. f_equal.
    rewrite <- (rev_involutive (lstrip_chars (chars s))) at 1.
    rewrite E2 at 1. now rewrite rev_app_distr.
  - rewrite forallb_forall in Hpost |- *. intros c Hc. apply Hpost. now apply in_rev.
Qed.

Lemma blank_strip (query : string) : blank query = String.eqb (strip query) "".
Proof.
  unfold blank. destruct (String.eqb_spec query "") as [->|Hne]; [reflexivity|done].
Qed.

(** White space around a query plays no role: two queries that differ
    only in the blanks at their ends are classified alike, and explained
    alike. *)
Theorem surrounding_blanks_ignored (query1 query2 : string) :
  strip query1 = strip query2 ->
  is_part_number query1 = is_part_number query2
  /\ explain_classification query1 = explain_classification query2.
Proof.
  intros H. unfold is_part_number, explain_classification.
  rewrite !blank_strip, H. done.
Qed.

(** A digit of the text is what [re.search(r'[0-9]', text)] finds. *)
Lemma search_digit (s : string) :
  re_search rx_digit s NOFLAG = true ->
  exists c, In c (chars s) /\ is_digit c = true.
Proof.
  unfold re_search. rewrite existsb_exists. intros (i & _ & Hi).
  unfold matches_at, rx_digit, digit in Hi. cbn [ends] in Hi.
  destruct (nth_error (chars s) i) as [c|] eqn:E; [|done].
  exists c. split; [eapply nth_error_In, E|].
  destruct (cls_has NOFLAG [CRange "0" "9"] c) eqn:Hc; [|done].
  unfold cls_has in Hc. cbn [existsb cset_has NOFLAG andb orb] in Hc.
  now rewrite !orb_false_r in Hc.
Qed.

(** What a part number must have.  A query is classified as a part number
    only if it contains a digit and, once stripped, has at least four
    characters. *)
Theorem part_number_needs_digit_and_length (query : string) :
  is_part_number query = true ->
  (exists c, In c (chars query) /\ is_digit c = true)
  /\ 4 <= String.length (strip query) <= String.length query.
Proof.
  unfold is_part_number.
  destruct (blank query); [done|].
  destruct (re_search rx_digit (strip query) NOFLAG) eqn:Hd; [|done].
  cbn [negb]. unfold len.
  destruct (Z.ltb_spec (Z.of_nat (String.length (strip query))) 4) as [|Hlen]; [done|].
  intros _.
  destruct (strip_spec query) as (pre & post & E & _ & _).
  split.
  - destruct (search_digit _ Hd) as (c & Hc & Hdig). exists c. split; [|done].
    rewrite E. apply in_or_app. right. apply in_or_app. now left.
  - split; [lia|].
    rewrite <- !length_chars, E, !length_app. lia.
Qed.

End ClassifierMore.

Section ClassifierCase.
Import PyStr Re PartNumberClassifier.

Lemma all_ascii_complete (c : ascii) : In c all_ascii.
Proof.
  unfold all_ascii. apply in_map_iff. exists (nat_of_ascii c).
  split; [apply ascii_nat_embedding|]. apply in_seq.
  pose proof (nat_ascii_bounded c). lia.
Qed.

Lemma ascii_forall (P : ascii -> bool) :
  forallb P all_ascii = true -> forall c, P c = true.
Proof. intros H c. rewrite forallb_forall in H. apply H, all_ascii_complete. Qed.

Lemma is_space_lower (c : ascii) : is_space (lower_char c) = is_space c.
Proof.
  apply eqb_prop.
  apply (ascii_forall (fun c => Bool.eqb (is_space (lower_char c)) (is_space c))).
  vm_compute. reflexivity.
Qed.

Lemma is_word_lower (c : ascii) : is_word (lower_char c) = is_word c.
Proof.
  apply eqb_prop.
  apply (ascii_forall (fun c => Bool.eqb (is_word (lower_char c)) (is_word c))).
  vm_compute. reflexivity.
Qed.

Lemma is_newline_lower (c : ascii) :
  (code (lower_char c) =? 10)%N = (code c =? 10)%N.
Proof.
  apply eqb_prop.
  apply (ascii_forall (fun c => Bool.eqb (code (lower_char c) =? 10)%N (code c =? 10)%N)).
  vm_compute. reflexivity.
Qed.

Lemma lower_char_idem (c : ascii) : lower_char (lower_char c) = lower_char c.
Proof.
  apply Ascii.eqb_eq.
  apply (ascii_forall (fun c => Ascii.eqb (lower_char (lower_char c)) (lower_char c))).
  vm_compute. reflexivity.
Qed.

Lemma upper_lower_char (c : ascii) : upper_char (lower_char c) = upper_char c.
Proof.
  apply Ascii.eqb_eq.
  apply (ascii_forall (fun c => Ascii.eqb (upper_char (lower_char c)) (upper_char c))).
  vm_compute. reflexivity.
Qed.

Lemma chars_lower (s : string) : chars (lower s) = map lower_char (chars s).
Proof. unfold lower. apply chars_of_chars. Qed.

Lemma lower_idem (s : string) : lower (lower s) = lower s.
Proof.
  unfold lower at 1. rewrite chars_lower, map_map. unfold lower. f_equal.
  apply map_ext. intros c. apply lower_char_idem.
Qed.

Lemma upper_lower (s : string) : upper (lower s) = upper s.
Proof.
  unfold upper. rewrite chars_lower, map_map. f_equal.
  apply map_ext. intros c. apply upper_lower_char.
Qed.

Lemma length_lower (s : string) : String.length (lower s) = String.length s.
Proof. now rewrite <- !length_chars, chars_lower, length_map. Qed.

Lemma len_lower (s : string) : len (lower s) = len s.
Proof. unfold len. now rewrite length_lower. Qed.

Lemma lstrip_chars_lower (l : list ascii) :
  lstrip_chars (map lower_char l) = map lower_char (lstrip_chars l).
Proof.
  induction l as [|c l IH]; simpl; [done|].
  rewrite is_space_lower. now destruct (is_space c).
Qed.

Lemma strip_lower (s : string) : strip (lower s) = lower (strip s).
Proof.
  unfold strip. rewrite chars_lower. unfold lower. rewrite chars_of_chars. f_equal.
  now rewrite lstrip_chars_lower, <- map_rev, lstrip_chars_lower, <- map_rev.
Qed.

Lemma split_chars_lower (cur l : list ascii) :
  split_chars (map lower_char cur) (map lower_char l)
  = map (map lower_char) (split_chars cur l).
Proof.
  revert cur. induction l as [|c l IH]; intros cur; cbn [map split_chars].
  - destruct cur as [|a cur]; [done|]. cbn [map]. now rewrite map_rev.
  - rewrite is_space_lower. destruct (is_space c).
    + destruct cur as [|a cur]; cbn [map]; [apply (IH [])|].
      rewrite map_rev. f_equal. apply (IH []).
    + apply (IH (c :: cur)).
Qed.

Lemma nwords_lower (s : string) : nwords (split (lower s)) = nwords (split s).
Proof.
  unfold nwords, split. rewrite chars_lower, !length_map.
  change (split_chars [] (map lower_char (chars s)))
    with (split_chars (map lower_char []) (map lower_char (chars s))).
  now rewrite split_chars_lower, length_map.
Qed.

Lemma empty_lower (s : string) : String.eqb (lower s) "" = String.eqb s "".
Proof. destruct s; reflexivity. Qed.

Lemma star_ends_ext (step1 step2 : nat -> list nat) (fuel i : nat) :
  (forall j, step1 j = step2 j) -> star_ends step1 fuel i = star_ends step2 fuel i.
Proof.
  intros H. revert i. induction fuel as [|n IH]; intros i; simpl; [done|].
  rewrite H. f_equal. apply flat_map_ext. intros j. now rewrite IH.
Qed.

(** A pattern that is closed under case matches a text and its lower-case
    form at the same places. *)
Lemma ends_lower (ic : bool) (r : regex) (s : list ascii) (i : nat) :
  case_closed ic r = true -> ends ic r (map lower_char s) i = ends ic r s i.
Proof.
  revert i. induction r as [|items|r1 IH1 r2 IH2|r1 IH1 r2 IH2|r1 IH1| | |];
    intros i Hc; cbn [ends case_closed] in *.
  - done.
  - rewrite nth_error_map. destruct (nth_error s i) as [c|]; [|done]. simpl.
    pose proof (ascii_forall _ Hc c) as E. apply eqb_prop in E. now rewrite E.
  - apply andb_true_iff in Hc as [H1 H2]. rewrite IH1 by done.
    apply flat_map_ext. intros j. now apply IH2.
  - apply andb_true_iff in Hc as [H1 H2]. now rewrite IH1, IH2.
  - rewrite length_map. apply star_ends_ext. intros j. now apply IH1.
  - done.
  - unfold eol_at. rewrite length_map, nth_error_map.
    destruct (nth_error s i) as [c|]; [|done]. simpl. now rewrite is_newline_lower.
  - unfold boundary_at, word_at. rewrite !nth_error_map.
    destruct i as [|j].
    + destruct (nth_error s 0) as [c|]; [|done]. simpl. now rewrite is_word_lower.
    + rewrite nth_error_map.
      destruct (nth_error s j) as [c|], (nth_error s (S j)) as [d|]; simpl;
        now rewrite ?is_word_lower.
Qed.

Lemma re_match_lower (r : regex) (s : string) (ic : bool) :
  case_closed ic r = true -> re_match r (lower s) ic = re_match r s ic.
Proof.
  intros Hc. unfold re_match, matches_at. now rewrite chars_lower, ends_lower.
Qed.

Lemma re_search_lower (r : regex) (s : string) (ic : bool) :
  case_closed ic r = true -> re_search r (lower s) ic = re_search r s ic.
Proof.
  intros Hc. unfold re_search. rewrite length_lower, chars_lower.
  assert (H : forall i, matches_at ic r (map lower_char (chars s)) i
                        = matches_at ic r (chars s) i)
    by (intros i; unfold matches_at; now rewrite ends_lower).
  induction (seq 0 (S (String.length s))) as [|i l IH]; simpl; [done|].
  now rewrite H, IH.
Qed.

Lemma is_part_number_lower (query : string) :
  is_part_number (lower query) = is_part_number query
  /\ explain_classification (lower query) = explain_classification query.
Proof.
  unfold is_part_number, explain_classification.
  rewrite !blank_strip, !strip_lower, !empty_lower.
  unfold any_whole_word.
  rewrite !lower_idem, !upper_lower, !len_lower, !nwords_lower.
  rewrite !re_search_lower by (vm_compute; reflexivity).
  rewrite !re_match_lower by (vm_compute; reflexivity).
  done.
Qed.

(** The classification ignores case: two queries that differ only in the
    case of their letters are classified alike, and explained alike. *)
Theorem classification_ignores_case (query1 query2 : string) :
  lower query1 = lower query2 ->
  is_part_number query1 = is_part_number query2
  /\ explain_classification query1 = explain_classification query2.
Proof.
  intros H.
  destruct (is_part_number_lower query1) as [<- <-].
  destruct (is_part_number_lower query2) as [<- <-].
  now rewrite H.
Qed.

End ClassifierCase.

Section ClassifierExplain.
Import PyStr Re PartNumberClassifier.

Lemma explained_total_snoc (lines : list string) (msg : string) :
  explained_total (lines ++ [msg]) = (explained_total lines + delta_of msg)%Z.
Proof.
  unfold explained_total. induction lines as [|m lines IH]; simpl; [lia|].
  rewrite IH. lia.
Qed.

Lemma fire_total (d : Z) (msg : string) (t : tally) :
  delta_of msg = d -> fst t = explained_total (snd t) ->
  fst (fire d msg t) = explained_total (snd (fire d msg t)).
Proof.
  intros Hd Ht. unfold fire, add. cbn [fst snd].
  rewrite explained_total_snoc. lia.
Qed.

Lemma when_fire_total (c : bool) (d : Z) (msg : string) (t : tally) :
  delta_of msg = d -> fst t = explained_total (snd t) ->
  fst (when c (fire d msg) t) = explained_total (snd (when c (fire d msg) t)).
Proof. intros Hd Ht. destruct c; [now apply fire_total|done]. Qed.

Lemma if_else_fire_total (c1 c2 : bool) (d1 d2 : Z) (m1 m2 : string) (t : tally) :
  delta_of m1 = d1 -> delta_of m2 = d2 -> fst t = explained_total (snd t) ->
  fst (if_else c1 (fire d1 m1) (when c2 (fire d2 m2)) t)
  = explained_total (snd (if_else c1 (fire d1 m1) (when c2 (fire d2 m2)) t)).
Proof.
  intros H1 H2 Ht. destruct c1; [now apply fire_total|now apply when_fire_total].
Qed.

(** The explanation accounts for the score.  For a query that passes the
    early rejection rules, the numbers at the head of the explanation
    lines add up to the score reported, and the decision is "IS A PART
    NUMBER" exactly when that score reaches 4; for a query that is rejected
    early the dictionary holds a single sentence and neither a score nor a
    decision. *)
Theorem explanation_accounts_for_score (query : string) :
  let result := explain_classification query in
  if early_rejected query
  then getitem result "is_part_number" = Some (VBool false)
       /\ (exists why, getitem result "explanation" = Some (VStr why))
       /\ getitem result "score" = None
       /\ getitem result "decision" = None
  else exists score lines,
         getitem result "score" = Some (VInt score)
         /\ getitem result "explanation" = Some (VList lines)
         /\ score = explained_total lines
         /\ getitem result "decision"
            = Some (VStr (if (4 <=? score)%Z then "IS A PART NUMBER"
                          else "IS NOT A PART NUMBER"))
         /\ is_part_number query = (4 <=? score)%Z.
Proof.
  cbn zeta. unfold early_rejected, explain_classification, is_part_number.
  destruct (blank query); cbn [orb];
    [repeat split; try reflexivity; eexists; reflexivity|].
  destruct (negb (re_search rx_digit (strip query) NOFLAG)); cbn [orb];
    [repeat split; try reflexivity; eexists; reflexivity|].
  destruct (len (strip query) <? 4)%Z; cbn [orb];
    [repeat split; try reflexivity; eexists; reflexivity|].
  destruct (_ && any _ search_terms); cbn [orb];
    [repeat split; try reflexivity; eexists; reflexivity|].
  destruct (re_match rx_doc_start (strip query) IGNORECASE);
    [repeat split; try reflexivity; eexists; reflexivity|].
  cbn [getitem String.eqb Ascii.eqb Bool.eqb].
  eexists _, _. split; [reflexivity|]. split; [reflexivity|].
  split; [|split; [reflexivity|]].
  - repeat (first [apply when_fire_total | apply if_else_fire_total]; [reflexivity..|]).
    reflexivity.
  - repeat (rewrite fst_when_fire || rewrite fst_if_else_fire). reflexivity.
Qed.

End ClassifierExplain.

(** * The command line of the classifier *)

Section MainFacts.
Import PyStr Re PartNumberClassifier ClassifierMain.

(** A text without digits has no match of [[0-9]]. *)
Lemma search_no_digit (s : string) :
  (forall c, In c (chars s) -> is_digit c = false) ->
  re_search rx_digit s NOFLAG = false.
Proof.
  intros H. destruct (re_search rx_digit s NOFLAG) eqn:E; [|done].
  destruct (search_digit s E) as (c & Hc & Hd). rewrite (H c Hc) in Hd. done.
Qed.

Lemma no_digit_rejected (query : string) :
  (forall c, In c (chars query) -> is_digit c = false) -> early_rejected query = true.
Proof.
  intros H. unfold early_rejected.
  rewrite search_no_digit; [now rewrite orb_true_r|].
  intros c Hc. apply H.
  destruct (strip_spec query) as (pre & post & -> & _ & _).
  apply in_or_app. right. apply in_or_app. now left.
Qed.

(** The [--explain] flag on the command line.  For a query that one of
    the early rejection rules turns down, [main] prints the query and then
    fails with [KeyError: 'decision']: the dictionary of a rejected query
    has no such key.  This is the case of every query without a digit.
    For any other query, and so for every query that is classified as a
    part number, [main] ends normally, having printed the decision, the
    score and the explanation lines. *)
Theorem explain_flag_key_error (q : string) (stdin : list string) :
  q <> "" ->
  let r := main {| query := Some q; explain := true; interactive := false |} stdin in
  (if early_rejected q
   then r = ([Stdout (String.append "Query: '" (String.append q "'"))],
             Some (KeyError "decision"))
   else exists score lines,
          r = ([Stdout (String.append "Query: '" (String.append q "'"));
                Stdout (String.append "Decision: "
                         (if (4 <=? score)%Z then "IS A PART NUMBER"
                          else "IS NOT A PART NUMBER"));
                Stdout (String.append "Score: "
                         (String.append (pretty score) " (Threshold: 4)"));
                Stdout (String.append nl "Explanation:")]
               ++ map (fun line => Stdout (String.append "  " line)) lines,
               None)
          /\ is_part_number q = (4 <=? score)%Z)
  /\ ((forall c, In c (chars q) -> is_digit c = false) -> early_rejected q = true)
  /\ (is_part_number q = true -> early_rejected q = false).
Proof.
  intros Hq. cbn zeta. split; [|split; [apply no_digit_rejected|]].
  - unfold main. cbn [interactive query explain].
    destruct (String.eqb_spec q "") as [|_]; [done|].
    unfold report, early_rejected, explain_classification, is_part_number.
    destruct (blank q); cbn [orb]; [reflexivity|].
    destruct (negb (re_search rx_digit (strip q) NOFLAG)); cbn [orb]; [reflexivity|].
    destruct (len (strip q) <? 4)%Z; cbn [orb]; [reflexivity|].
    destruct (_ && any _ search_terms); cbn [orb]; [reflexivity|].
    destruct (re_match rx_doc_start (strip q) IGNORECASE); [reflexivity|].
    cbn [getitem String.eqb Ascii.eqb Bool.eqb str iter].
    eexists _, _. split.
    + cbn [app]. reflexivity.
    + repeat (rewrite fst_when_fire || rewrite fst_if_else_fire). reflexivity.
  - unfold is_part_number, early_rejected.
    destruct (blank q); [done|].
    destruct (negb (re_search rx_digit (strip q) NOFLAG)); [done|].
    destruct (len (strip q) <? 4)%Z; [done|].
    destruct (_ && any _ search_terms); [done|].
    destruct (re_match rx_doc_start (strip q) IGNORECASE); [done|].
    done.
Qed.

(** In the interactive mode an [explain] request for a query that is
    rejected early ends the session: the loop prints the query, fails with
    [KeyError: 'decision'] and reads no further line. *)
Theorem interactive_explain_ends_session (line : string) (rest : list string) :
  startswith (lower (strip line)) "explain " = true ->
  strip (from_8 (strip line)) <> "" ->
  early_rejected (strip (from_8 (strip line))) = true ->
  interactive_loop (line :: rest)
  = ([Prompt (String.append nl "Enter query: ");
      Stdout (String.append nl
               (String.append "Query: '"
                  (String.append (strip (from_8 (strip line))) "'")))],
     Some (KeyError "decision")).
Proof.
  intros Hexplain Hne Hrej. cbn [interactive_loop]. cbn zeta.
  rewrite Hexplain.
  assert (Hquit : existsb (String.eqb (lower (strip line))) ["exit"; "quit"] = false).
  { cbn [existsb].
    destruct (String.eqb_spec (lower (strip line)) "exit") as [E|_];
      [rewrite E in Hexplain; done|].
    destruct (String.eqb_spec (lower (strip line)) "quit") as [E|_];
      [rewrite E in Hexplain; done|]. done. }
  rewrite Hquit.
  destruct (String.eqb_spec (strip (from_8 (strip line))) "") as [|_]; [done|].
  assert (Hreport : forall q, early_rejected q = true ->
            report nl q
            = ([Stdout (String.append nl (String.append "Query: '" (String.append q "'")))],
               Some (KeyError "decision"))).
  { intros q. unfold report, early_rejected, explain_classification.
    destruct (blank q); cbn [orb]; [reflexivity|].
    destruct (negb (re_search rx_digit (strip q) NOFLAG)); cbn [orb]; [reflexivity|].
    destruct (len (strip q) <? 4)%Z; cbn [orb]; [reflexivity|].
    destruct (_ && any _ search_terms); cbn [orb]; [reflexivity|].
    destruct (re_match rx_doc_start (strip q) IGNORECASE); [reflexivity|done]. }
  now rewrite (Hreport _ Hrej).
Qed.

End MainFacts.

(** * More instances *)

Section MoreInstances.
Import Qdrant Search Demo PyStr PartNumberClassifier ClassifierMain.

(** "A" is found by the index only: its hit is returned as it was. *)
Lemma single_source_hit_untouched_example :
  let '(h', fused) := Fusion.simple_fusion objects0 [0] [1; 2; 3] in
  In 2 fused /\ h' 2 = objects0 2
  /\ forall r, In r fused -> id (h' r) = id (objects0 2) -> r = 2.
Proof.
  apply (single_source_hit_untouched objects0 [0] [1; 2; 3] 2). reflexivity.
Defined.

(** "HYP220479" is found by both searches: the exact hit wins and is
    tagged "exact+vector". *)
Lemma found_by_both_label_example :
  let '(h', fused) := Fusion.simple_fusion objects0 [0] [1; 2; 3] in
  let winner := if PyFloat.gt (score (objects0 1)) (score (objects0 0)) then 1 else 0 in
  In winner fused
  /\ (forall r, In r fused -> id (h' r) = id (objects0 0) -> r = winner)
  /\ search_type (h' winner)
     = String.append (search_type (objects0 0))
         (String.append "+" (search_type (objects0 1)))
  /\ score (h' winner) = score (objects0 winner)
  /\ payload (h' winner) = payload (objects0 winner).
Proof.
  apply (found_by_both_label objects0 [0] [1; 2; 3] 0 1); reflexivity.
Defined.

(** Three hits with three ids. *)
Lemma ties_keep_input_order_example :
  let '(h', fused) := Fusion.simple_fusion objects0 [0] [2; 3] in
  (forall x, h' x = objects0 x)
  /\ fused ≡ₚ [0] ++ [2; 3]
  /\ List.filter (fun x => Qeq_bool (score (objects0 x)) (1 # 2)) fused
     = List.filter (fun x => Qeq_bool (score (objects0 x)) (1 # 2)) [0]
       ++ List.filter (fun x => Qeq_bool (score (objects0 x)) (1 # 2)) [2; 3].
Proof.
  apply (ties_keep_input_order objects0 [0] [2; 3] (1 # 2)).
  apply (bool_decide_unpack _). vm_compute. exact I.
Defined.

(** The part number "HYP220479" is filed in the store. *)
Lemma exact_match_ranks_first_example :
  exists r rest w' suffix,
    parallel_search part_index "products_fast" "HYP220479" 10 w0 = (Return (r :: rest), w')
    /\ score (objects w' r) = PyFloat.f_1_0
    /\ search_type (objects w' r) = String.append "exact" suffix
    /\ id (objects w' r)
       = payload_get (record_payload (mkRecord (IntId 7) (part "HYP220479")))
           "partNumber_airgas_text" (Qdrant.str (record_id (mkRecord (IntId 7) (part "HYP220479"))))
    /\ payload (objects w' r) = record_payload (mkRecord (IntId 7) (part "HYP220479"))
    /\ qdrant_id (objects w' r)
       = Some (Qdrant.str (record_id (mkRecord (IntId 7) (part "HYP220479")))).
Proof.
  apply (exact_match_ranks_first part_index "products_fast" "HYP220479" 10 w0
           (mkRecord (IntId 7) (part "HYP220479")) [] None tt).
  - reflexivity.
  - intros v limit e pts q [= <-] Hq. simpl in Hq.
    destruct Hq as [<-|[<-|[<-|[]]]]; vm_compute; discriminate.
  - lia.
Defined.


Lemma embedding_cache_bounded_example :
  NoDup (map fst (embedding_cache (snd (_get_embedding_cached catalog "gas torch" w0))))
  /\ length (embedding_cache (snd (_get_embedding_cached catalog "gas torch" w0)))
     <= maxsize.
Proof.
  apply (embedding_cache_bounded catalog "gas torch" w0).
  - simpl. constructor.
  - simpl. unfold maxsize. lia.
Defined.



Lemma surrounding_blanks_ignored_example :
  is_part_number "  RAD64002019 " = is_part_number "RAD64002019"
  /\ explain_classification "  RAD64002019 " = explain_classification "RAD64002019".
Proof.
  apply (surrounding_blanks_ignored "  RAD64002019 " "RAD64002019"). reflexivity.
Defined.

Lemma part_number_needs_digit_and_length_example :
  (exists c, In c (chars "RAD64002019") /\ is_digit c = true)
  /\ 4 <= String.length (strip "RAD64002019") <= String.length "RAD64002019".
Proof.
  apply (part_number_needs_digit_and_length "RAD64002019"). vm_compute. reflexivity.
Defined.

Lemma classification_ignores_case_example :
  is_part_number "rad64002019" = is_part_number "RAD64002019"
  /\ explain_classification "rad64002019" = explain_classification "RAD64002019".
Proof.
  apply (classification_ignores_case "rad64002019" "RAD64002019"). reflexivity.
Defined.

(** [--explain hello] *)
Lemma explain_flag_key_error_example :
  let r := main {| query := Some "hello"; explain := true; interactive := false |} [] in
  (if early_rejected "hello"
   then r = ([Stdout (String.append "Query: '" (String.append "hello" "'"))],
             Some (KeyError "decision"))
   else exists score lines,
          r = ([Stdout (String.append "Query: '" (String.append "hello" "'"));
                Stdout (String.append "Decision: "
                          (if (4 <=? score)%Z then "IS A PART NUMBER"
                           else "IS NOT A PART NUMBER"));
                Stdout (String.append "Score: "
                          (String.append (pretty score) " (Threshold: 4)"));
                Stdout (String.append nl "Explanation:")]
               ++ map (fun line => Stdout (String.append "  " line)) lines,
               None)
          /\ is_part_number "hello" = (4 <=? score)%Z)
  /\ ((forall c, In c (chars "hello") -> is_digit c = false)
      -> early_rejected "hello" = true)
  /\ (is_part_number "hello" = true -> early_rejected "hello" = false).
Proof. apply (explain_flag_key_error "hello" []). discriminate. Defined.

(** A session in which the first request is "explain hello". *)
Lemma interactive_explain_ends_session_example :
  interactive_loop ["explain hello"; "RAD64002019"; "exit"]
  = ([Prompt (String.append nl "Enter query: ");
      Stdout (String.append nl
                (String.append "Query: '"
                   (String.append (strip (from_8 (strip "explain hello"))) "'")))],
     Some (KeyError "decision")).
Proof.
  apply (interactive_explain_ends_session "explain hello" ["RAD64002019"; "exit"]).
  - reflexivity.
  - vm_compute. discriminate.
  - reflexivity.
Defined.

End MoreInstances.
